(** * A FAT12 root-directory reader: tools/fat/fat.c

    A shallow embedding of [tools/fat/fat.c] and the properties of its
    load pipeline: boot sector, allocation table, root directory, lookup.

    Conventions of the embedding.
    - C integers are [Z]; every conversion to a fixed-width unsigned type is
      written out as a reduction modulo a power of two, and [int] arithmetic
      that leaves the range of [int] is undefined behaviour.
    - The program runs in a state monad over the open stream, the heap, the
      three global variables and a trace of the library calls made so far.
      A computation either returns a value and a state, or is [Undefined]
      (division by zero, signed overflow, access outside an object, a read of
      an indeterminate byte).
    - The host is little-endian, with 32-bit [int] and 8-bit bytes, as on the
      machines the FAT format was designed for.
    - The disk image is a regular file: a finite sequence of bytes.  [fseek]
      to a non-negative offset succeeds, also beyond the end; [fread] stops
      at the end of the file.  [malloc] does not fail.  What [main] prints
      is not modelled.
    - The contract of [ReadDiskSectors] is also stated for streams on which
      a seek fails: its body, [ReadDiskSectors_over], takes the seek of the
      stream as a parameter, and the program instantiates it with
      [fseek]. *)

From Stdlib Require Import ZArith List Lia Bool.
From Stdlib.Strings Require Import Byte.
From Stdlib.Strings Require String.
Import String.StringSyntax.
Import ListNotations.
Local Open Scope Z_scope.

(** ** Machine integers *)

Module CInt.

Definition INT_MAX : Z := 2 ^ 31 - 1.
Definition INT_MIN : Z := - 2 ^ 31.

(** Conversion of an integer value to an unsigned type of the given width. *)
Definition uint8_t (z : Z) : Z := z mod 2 ^ 8.
Definition uint16_t (z : Z) : Z := z mod 2 ^ 16.
Definition uint32_t (z : Z) : Z := z mod 2 ^ 32.

Definition in_int (z : Z) : bool := (INT_MIN <=? z) && (z <=? INT_MAX).

End CInt.
Import CInt.

(** ** Bytes and little-endian integers *)

Definition byte_val (b : byte) : Z := Z.of_N (Byte.to_N b).

(** The value of an unsigned integer stored least significant byte first. *)
Fixpoint le_uint (bs : list byte) : Z :=
  match bs with
  | [] => 0
  | b :: rest => byte_val b + 256 * le_uint rest
  end.

(** The [n] bytes found at offset [ofs] of an object. *)
Definition slice {A : Type} (ofs n : nat) (m : list A) : list A :=
  firstn n (skipn ofs m).

(** ** The on-disk structures *)

(** [BootSector]: the FAT12 header and the extended boot record.  The
    structure is packed: a field starts where the previous one ends. *)
Record BootSector : Type := mkBootSector {
  bootJumpInstruction : list byte;   (* uint8_t [3]  *)
  oemIdentifier       : list byte;   (* uint8_t [8]  *)
  bytesPerSector      : Z;           (* uint16_t     *)
  sectorsPerCluster   : Z;           (* uint8_t      *)
  reservedSectors     : Z;           (* uint16_t     *)
  fatCount            : Z;           (* uint8_t      *)
  dirEntryCount       : Z;           (* uint16_t     *)
  totalSectors        : Z;           (* uint16_t     *)
  mediaDescriptorType : Z;           (* uint8_t      *)
  sectorsPerFat       : Z;           (* uint16_t     *)
  sectorsPerTrack     : Z;           (* uint16_t     *)
  heads               : Z;           (* uint16_t     *)
  hiddenSectors       : Z;           (* uint32_t     *)
  largeSectorCount    : Z;           (* uint32_t     *)
  driveNumber         : Z;           (* uint8_t      *)
  bs_reserved         : Z;           (* uint8_t _reserved *)
  signature           : Z;           (* uint8_t      *)
  volumeID            : Z;           (* uint32_t     *)
  volumeLabel         : list byte;   (* uint8_t [11] *)
  systemID            : list byte    (* uint8_t [8]  *)
}.

(** Reading the members of a packed structure one after the other: each
    reader returns the member and the bytes that follow it. *)
Definition take_array (n : nat) (m : list byte) : list byte * list byte :=
  (firstn n m, skipn n m).

Definition take_uint (n : nat) (m : list byte) : Z * list byte :=
  (le_uint (firstn n m), skipn n m).

(** The structure seen through its object representation. *)
Definition BootSector_of_bytes (m : list byte) : BootSector :=
  let '(jump, m) := take_array 3 m in
  let '(oem, m) := take_array 8 m in
  let '(bps, m) := take_uint 2 m in
  let '(spc, m) := take_uint 1 m in
  let '(rsv, m) := take_uint 2 m in
  let '(fats, m) := take_uint 1 m in
  let '(dirs, m) := take_uint 2 m in
  let '(total, m) := take_uint 2 m in
  let '(media, m) := take_uint 1 m in
  let '(spf, m) := take_uint 2 m in
  let '(spt, m) := take_uint 2 m in
  let '(hds, m) := take_uint 2 m in
  let '(hidden, m) := take_uint 4 m in
  let '(large, m) := take_uint 4 m in
  let '(drive, m) := take_uint 1 m in
  let '(rsvd, m) := take_uint 1 m in
  let '(sig, m) := take_uint 1 m in
  let '(vol, m) := take_uint 4 m in
  let '(label, m) := take_array 11 m in
  let '(sysid, _) := take_array 8 m in
  mkBootSector jump oem bps spc rsv fats dirs total media spf spt hds
               hidden large drive rsvd sig vol label sysid.

(** The sizes of the members, in declaration order; with no padding
    between members, [sizeof (BootSector)] is their sum. *)
Definition BootSector_members : list nat :=
  [3; 8; 2; 1; 2; 1; 2; 2; 1; 2; 2; 2; 4; 4; 1; 1; 1; 4; 11; 8]%nat.

Definition sizeof_BootSector : Z :=
  Eval cbv in Z.of_nat (list_sum BootSector_members).

(** [DirectoryEntry]: a packed 32-byte record of the root directory. *)
Record DirectoryEntry : Type := mkDirectoryEntry {
  name              : list byte;   (* uint8_t [11] *)
  attributes        : Z;           (* uint8_t      *)
  de_reserved       : Z;           (* uint8_t _reserved *)
  createdTimeTenths : Z;           (* uint8_t      *)
  creationTime      : Z;           (* uint16_t     *)
  creationDate      : Z;           (* uint16_t     *)
  accessedDate      : Z;           (* uint16_t     *)
  firstClusterHigh  : Z;           (* uint16_t     *)
  modifiedTime      : Z;           (* uint16_t     *)
  modifiedDate      : Z;           (* uint16_t     *)
  firstClusterLow   : Z;           (* uint16_t     *)
  size              : Z            (* uint32_t     *)
}.

Definition DirectoryEntry_of_bytes (m : list byte) : DirectoryEntry :=
  let '(nm, m) := take_array 11 m in
  let '(attr, m) := take_uint 1 m in
  let '(rsvd, m) := take_uint 1 m in
  let '(tenths, m) := take_uint 1 m in
  let '(ctime, m) := take_uint 2 m in
  let '(cdate, m) := take_uint 2 m in
  let '(adate, m) := take_uint 2 m in
  let '(high, m) := take_uint 2 m in
  let '(mtime, m) := take_uint 2 m in
  let '(mdate, m) := take_uint 2 m in
  let '(low, m) := take_uint 2 m in
  let '(sz, _) := take_uint 4 m in
  mkDirectoryEntry nm attr rsvd tenths ctime cdate adate high mtime mdate low sz.

Definition DirectoryEntry_members : list nat :=
  [11; 1; 1; 1; 2; 2; 2; 2; 2; 2; 2; 4]%nat.

Definition sizeof_DirectoryEntry : Z :=
  Eval cbv in Z.of_nat (list_sum DirectoryEntry_members).

(** ** Program state *)

(** A byte of an allocated object is indeterminate until it is written. *)
Definition cell : Type := option byte.

(** A heap block is the array of its cells, or [None] once freed. *)
Definition block : Type := option (list cell).

(** A pointer is null, the address of the global [g_BootSector], or an
    offset into a heap block. *)
Inductive pointer : Type :=
| NULL
| AddrBootSector
| Ptr (b : nat) (ofs : Z).

(** The stream [disk]: a regular file opened for reading, with its
    file-position indicator. *)
Record FILE : Type := mkFILE {
  contents : list byte;
  position : Z
}.

(** The calls of the C library the program makes, with their results. *)
Inductive event : Type :=
| Efopen (found : bool)
| Efread (sz nmemb : Z) (at_pos : Z) (items : Z)
| Efseek (offset : Z) (result : Z)
| Emalloc (bytes : Z) (result : pointer)
| Efree (p : pointer).

Record state : Type := mkState {
  disk : FILE;
  heap : list block;
  g_BootSector : list byte;      (* the object representation, 62 bytes *)
  g_Fat : pointer;
  g_RootDirectory : pointer;
  trace : list event
}.

(** Program start: globals are zero-initialised, nothing is allocated. *)
Definition initial_state : state :=
  {| disk := mkFILE [] 0;
     heap := [];
     g_BootSector := repeat x00 (Z.to_nat sizeof_BootSector);
     g_Fat := NULL;
     g_RootDirectory := NULL;
     trace := [] |}.

Definition set_disk (f : FILE) (s : state) : state :=
  mkState f (heap s) (g_BootSector s) (g_Fat s) (g_RootDirectory s) (trace s).
Definition set_heap (h : list block) (s : state) : state :=
  mkState (disk s) h (g_BootSector s) (g_Fat s) (g_RootDirectory s) (trace s).
Definition set_g_BootSector (m : list byte) (s : state) : state :=
  mkState (disk s) (heap s) m (g_Fat s) (g_RootDirectory s) (trace s).
Definition set_g_Fat (p : pointer) (s : state) : state :=
  mkState (disk s) (heap s) (g_BootSector s) p (g_RootDirectory s) (trace s).
Definition set_g_RootDirectory (p : pointer) (s : state) : state :=
  mkState (disk s) (heap s) (g_BootSector s) (g_Fat s) p (trace s).
Definition log (e : event) (s : state) : state :=
  mkState (disk s) (heap s) (g_BootSector s) (g_Fat s) (g_RootDirectory s)
          (trace s ++ [e]).

(** ** The monad of C computations *)

Inductive outcome (A : Type) : Type :=
| Ok (a : A)
| Undefined.
Arguments Ok {A} a.
Arguments Undefined {A}.

Definition M (A : Type) : Type := state -> outcome (A * state).

Definition ret {A : Type} (a : A) : M A := fun s => Ok (a, s).

Definition bind {A B : Type} (m : M A) (k : A -> M B) : M B :=
  fun s => match m s with
           | Ok (a, s') => k a s'
           | Undefined => Undefined
           end.

Definition undefined {A : Type} : M A := fun _ => Undefined.
Definition get : M state := fun s => Ok (s, s).
Definition modify (f : state -> state) : M unit := fun s => Ok (tt, f s).

Notation "x <- m ;; k" := (bind m (fun x => k))
  (at level 61, m at next level, right associativity).
Notation "m ;;; k" := (bind m (fun _ => k))
  (at level 61, right associativity).

(** The global [g_BootSector], read through the structure type. *)
Definition BootSector_now : M BootSector :=
  s <- get ;; ret (BootSector_of_bytes (g_BootSector s)).

(** An [int] expression: undefined when its value is not an [int]. *)
Definition int_expr (z : Z) : M Z :=
  if in_int z then ret z else undefined.

(** ** Memory *)

(** The bytes of an array of cells, when all of them have been written. *)
Fixpoint defined_bytes (cs : list cell) : option (list byte) :=
  match cs with
  | [] => Some []
  | Some b :: rest =>
      match defined_bytes rest with
      | Some bs => Some (b :: bs)
      | None => None
      end
  | None :: _ => None
  end.

(** Overwriting [length data] elements of [m] from index [ofs] on. *)
Definition overwrite {A : Type} (ofs : nat) (data m : list A) : list A :=
  firstn ofs m ++ data ++ skipn (ofs + length data) m.

Fixpoint set_nth {A : Type} (n : nat) (x : A) (l : list A) : list A :=
  match n, l with
  | _, [] => []
  | O, _ :: t => x :: t
  | S n', h :: t => h :: set_nth n' x t
  end.

Definition ptr_add (p : pointer) (k : Z) : pointer :=
  match p with
  | Ptr b ofs => Ptr b (ofs + k)
  | other => other
  end.

(** Writing [data] at [p].  Writing nothing accesses nothing; any other
    write must stay inside a live object. *)
Definition store (p : pointer) (data : list byte) : M unit :=
  fun s =>
    match data with
    | [] => Ok (tt, s)
    | _ :: _ =>
        match p with
        | NULL => Undefined
        | AddrBootSector =>
            if (length data <=? length (g_BootSector s))%nat
            then Ok (tt, set_g_BootSector (overwrite 0 data (g_BootSector s)) s)
            else Undefined
        | Ptr b ofs =>
            match nth_error (heap s) b with
            | Some (Some cells) =>
                if (0 <=? ofs) && (ofs + Z.of_nat (length data) <=? Z.of_nat (length cells))
                then Ok (tt, set_heap
                               (set_nth b (Some (overwrite (Z.to_nat ofs) (map Some data) cells))
                                        (heap s)) s)
                else Undefined
            | _ => Undefined
            end
        end
    end.

(** Reading [n] bytes at [p]: inside a live heap object, and written. *)
Definition load (p : pointer) (n : nat) : M (list byte) :=
  fun s =>
    match p with
    | Ptr b ofs =>
        match nth_error (heap s) b with
        | Some (Some cells) =>
            if (0 <=? ofs) && (ofs + Z.of_nat n <=? Z.of_nat (length cells))
            then match defined_bytes (slice (Z.to_nat ofs) n cells) with
                 | Some bs => Ok (bs, s)
                 | None => Undefined
                 end
            else Undefined
        | _ => Undefined
        end
    | AddrBootSector =>
        if (n <=? length (g_BootSector s))%nat
        then Ok (firstn n (g_BootSector s), s)
        else Undefined
    | NULL => Undefined
    end.

(** ** The C library *)

(** [malloc]: a fresh block of indeterminate bytes.  Allocation is taken
    to succeed; a request of zero bytes yields a distinct empty block. *)
Definition malloc (n : Z) : M pointer :=
  fun s =>
    let p := Ptr (length (heap s)) 0 in
    Ok (p, log (Emalloc n p)
             (set_heap (heap s ++ [Some (repeat None (Z.to_nat n))]) s)).

(** [free]: nothing for a null pointer; otherwise the pointer must be the
    start of a live block. *)
Definition free (p : pointer) : M unit :=
  fun s =>
    match p with
    | NULL => Ok (tt, log (Efree p) s)
    | Ptr b 0 =>
        match nth_error (heap s) b with
        | Some (Some _) => Ok (tt, log (Efree p) (set_heap (set_nth b None (heap s)) s))
        | _ => Undefined
        end
    | _ => Undefined
    end.

(** [fopen (path, "rb")]: [image] is what the path names, if anything. *)
Definition fopen (image : option (list byte)) : M bool :=
  fun s =>
    match image with
    | Some bytes => Ok (true, log (Efopen true) (set_disk (mkFILE bytes 0) s))
    | None => Ok (false, log (Efopen false) s)
    end.

(** [fseek (disk, offset, SEEK_SET)] on a regular file: a negative offset
    is refused, any other becomes the position, also beyond the end. *)
Definition fseek (offset : Z) : M Z :=
  fun s =>
    if offset <? 0
    then Ok (-1, log (Efseek offset (-1)) s)
    else Ok (0, log (Efseek offset 0)
                  (set_disk (mkFILE (contents (disk s)) offset) s)).

(** [fseek] on a stream that cannot seek, a pipe for instance: it is
    refused whatever the offset, and the stream stays as it is. *)
Definition fseek_refused (offset : Z) : M Z :=
  fun s => Ok (-1, log (Efseek offset (-1)) s).

(** The bytes between the position of the stream and its end. *)
Definition remaining (f : FILE) : list byte :=
  skipn (Z.to_nat (position f)) (contents f).

(** [fread (ptr, sz, nmemb, disk)]: returns zero and does nothing when
    [sz] or [nmemb] is zero; otherwise transfers up to [sz * nmemb] bytes,
    advances the position by the number of bytes transferred and returns
    the number of complete items.  The bytes of a last, partial item are
    stored as they were read. *)
Definition fread (ptr : pointer) (sz nmemb : Z) : M Z :=
  fun s =>
    if (sz =? 0) || (nmemb =? 0)
    then Ok (0, log (Efread sz nmemb (position (disk s)) 0) s)
    else
      let f := disk s in
      let data := firstn (Z.to_nat (sz * nmemb)) (remaining f) in
      let got := Z.of_nat (length data) in
      match store ptr data s with
      | Ok (_, s') =>
          Ok (got / sz,
              log (Efread sz nmemb (position f) (got / sz))
                  (set_disk (mkFILE (contents f) (position f + got)) s'))
      | Undefined => Undefined
      end.

(** Comparison of two arrays of the same length as [unsigned char]s. *)
Fixpoint compare_bytes (a b : list byte) : Z :=
  match a, b with
  | x :: a', y :: b' =>
      if byte_val x =? byte_val y then compare_bytes a' b'
      else byte_val x - byte_val y
  | _, _ => 0
  end.

(** [memcmp (s1, s2, n)], with [s1] the bytes of the object the first
    pointer designates and [s2] a pointer into program memory. *)
Definition memcmp (s1 : list byte) (s2 : pointer) (n : nat) : M Z :=
  if (length s1 <? n)%nat then undefined
  else b <- load s2 n ;; ret (compare_bytes (firstn n s1) b).

(** ** The program *)

(** [bool ReadBootSector (FILE* disk)] *)
Definition ReadBootSector : M bool :=
  n <- fread AddrBootSector sizeof_BootSector 1 ;;
  ret (n >? 0).

(** The body of [ReadDiskSectors], over the operation [seek] that the call
    [fseek (disk, offset, SEEK_SET)] performs on the stream.  The arguments
    are converted to the types of the parameters; [lba * bytesPerSector] is
    an [int] product; [&&] does not evaluate its right operand when the left
    one is false. *)
Definition ReadDiskSectors_over (seek : Z -> M Z)
    (lba count : Z) (bufferOut : pointer) : M bool :=
  let lba := uint8_t lba in
  let count := uint32_t count in
  let ok := true in
  ok <- (if ok
         then bs <- BootSector_now ;;
              offset <- int_expr (lba * bytesPerSector bs) ;;
              r <- seek offset ;;
              ret (r =? 0)
         else ret false) ;;
  ok <- (if ok
         then bs <- BootSector_now ;;
              n <- fread bufferOut (bytesPerSector bs) count ;;
              ret (n =? count)
         else ret false) ;;
  ret ok.

(** [bool ReadDiskSectors (FILE* disk, uint8_t lba, uint32_t count,
    void* bufferOut)]: the program runs on a regular file, where the seek
    is [fseek]. *)
Definition ReadDiskSectors (lba count : Z) (bufferOut : pointer) : M bool :=
  ReadDiskSectors_over fseek lba count bufferOut.

(** [bool ReadFAT (FILE* disk)].  The size handed to [malloc] is an
    [int] product. *)
Definition ReadFAT : M bool :=
  bs <- BootSector_now ;;
  bytes <- int_expr (sectorsPerFat bs * bytesPerSector bs) ;;
  p <- malloc bytes ;;
  modify (set_g_Fat p) ;;;
  bs <- BootSector_now ;;
  s <- get ;;
  ReadDiskSectors (reservedSectors bs) (sectorsPerFat bs) (g_Fat s).

(** [bool ReadRootDirectory (FILE* disk)].  [lba] is computed in [int]
    and stored in a [uint32_t]; [size] and [sectors] are [uint32_t]; the
    division and the remainder are undefined for a zero divisor. *)
Definition ReadRootDirectory : M bool :=
  bs <- BootSector_now ;;
  product <- int_expr (sectorsPerFat bs * fatCount bs) ;;
  sum <- int_expr (reservedSectors bs + product) ;;
  let lba := uint32_t sum in
  let size := uint32_t (sizeof_DirectoryEntry * dirEntryCount bs) in
  if bytesPerSector bs =? 0 then undefined
  else
    let sectors := size / bytesPerSector bs in
    let sectors :=
      if size mod bytesPerSector bs >? 0 then uint32_t (sectors + 1)
      else sectors in
    p <- malloc (uint32_t (sectors * bytesPerSector bs)) ;;
    modify (set_g_RootDirectory p) ;;;
    s <- get ;;
    ReadDiskSectors lba sectors (g_RootDirectory s).

(** The loop of [FindFile], with [i] the loop variable and [todo] the
    number of iterations left before [i] reaches [dirEntryCount]. *)
Fixpoint FindFile_loop (todo : nat) (i : Z) (name : list byte) : M pointer :=
  match todo with
  | O => ret NULL
  | S todo' =>
      s <- get ;;
      let entry := ptr_add (g_RootDirectory s) (sizeof_DirectoryEntry * i) in
      c <- memcmp name entry 11 ;;
      if c =? 0 then ret entry
      else FindFile_loop todo' (uint32_t (i + 1)) name
  end.

(** [DirectoryEntry* FindFile (const char* name)]; [name] is the array
    of bytes the argument points to. *)
Definition FindFile (name : list byte) : M pointer :=
  bs <- BootSector_now ;;
  FindFile_loop (Z.to_nat (dirEntryCount bs)) 0 name.

(** [int main (int argc, char** argv)], with [image] the file that
    [argv[1]] names and [name] the bytes at [argv[2]].  Messages printed
    on the way are not modelled. *)
Definition main (argc : Z) (image : option (list byte)) (name : list byte)
  : M Z :=
  if argc <? 3 then ret (-1)
  else
    opened <- fopen image ;;
    if negb opened then ret (-1)
    else
      ok <- ReadBootSector ;;
      if negb ok then ret (-2)
      else
        ok <- ReadFAT ;;
        if negb ok
        then s <- get ;; free (g_Fat s) ;;; ret (-3)
        else
          ok <- ReadRootDirectory ;;
          if negb ok
          then s <- get ;; free (g_Fat s) ;;;
               s <- get ;; free (g_RootDirectory s) ;;; ret (-4)
          else
            fileEntry <- FindFile name ;;
            match fileEntry with
            | NULL =>
                s <- get ;; free (g_Fat s) ;;;
                s <- get ;; free (g_RootDirectory s) ;;; ret (-5)
            | _ =>
                s <- get ;; free (g_Fat s) ;;;
                s <- get ;; free (g_RootDirectory s) ;;; ret 0
            end.

(** The directory entry a pointer returned by [FindFile] designates. *)
Definition entry_at (p : pointer) : M DirectoryEntry :=
  m <- load p (Z.to_nat sizeof_DirectoryEntry) ;;
  ret (DirectoryEntry_of_bytes m).

(** ** Vocabulary of the statements *)

(** What the seek of a stream may do: each call either does what [fseek]
    does on a regular file, or fails: it returns a value other than zero,
    and touches nothing but the position of the stream. *)
Definition seek_operation (seek : Z -> M Z) : Prop :=
  forall (offset : Z) (s : state),
    seek offset s = fseek offset s \/
    exists (r pos : Z),
      r <> 0 /\
      seek offset s
        = Ok (r, log (Efseek offset r)
                   (set_disk (mkFILE (contents (disk s)) pos) s)).

(** The state a computation leaves. *)
Definition state_after {A : Type} (m : M A) (s : state) : state :=
  match m s with
  | Ok (_, s') => s'
  | Undefined => s
  end.

(** The value a computation returns, if it is defined. *)
Definition value_of {A : Type} (o : outcome (A * state)) : option A :=
  match o with
  | Ok (a, _) => Some a
  | Undefined => None
  end.

(** The offsets of the members of a packed structure, from their sizes. *)
Fixpoint packed_offsets (start : nat) (sizes : list nat) : list nat :=
  match sizes with
  | [] => []
  | n :: rest => start :: packed_offsets (start + n) rest
  end.

(** The member found at a byte offset of an object. *)
Definition uint_at (ofs width : nat) (m : list byte) : Z :=
  le_uint (slice ofs width m).

(** The members of [bs] are the bytes of [m] at the offsets of the packed
    layout: each offset is the sum of the sizes of the members before. *)
Definition BootSector_at_offsets (bs : BootSector) (m : list byte) : Prop :=
  bootJumpInstruction bs = slice 0 3 m /\
  oemIdentifier bs = slice 3 8 m /\
  bytesPerSector bs = uint_at 11 2 m /\
  sectorsPerCluster bs = uint_at 13 1 m /\
  reservedSectors bs = uint_at 14 2 m /\
  fatCount bs = uint_at 16 1 m /\
  dirEntryCount bs = uint_at 17 2 m /\
  totalSectors bs = uint_at 19 2 m /\
  mediaDescriptorType bs = uint_at 21 1 m /\
  sectorsPerFat bs = uint_at 22 2 m /\
  sectorsPerTrack bs = uint_at 24 2 m /\
  heads bs = uint_at 26 2 m /\
  hiddenSectors bs = uint_at 28 4 m /\
  largeSectorCount bs = uint_at 32 4 m /\
  driveNumber bs = uint_at 36 1 m /\
  bs_reserved bs = uint_at 37 1 m /\
  signature bs = uint_at 38 1 m /\
  volumeID bs = uint_at 39 4 m /\
  volumeLabel bs = slice 43 11 m /\
  systemID bs = slice 54 8 m.

(** The 32 bytes of the entry of index [i] of a directory held in [dir]. *)
Definition entry_bytes (dir : list byte) (i : Z) : list byte :=
  slice (Z.to_nat (sizeof_DirectoryEntry * i)) (Z.to_nat sizeof_DirectoryEntry) dir.

(** The name field of that entry: its first 11 bytes. *)
Definition entry_name (dir : list byte) (i : Z) : list byte :=
  slice (Z.to_nat (sizeof_DirectoryEntry * i)) 11 dir.

(** The root directory is loaded: [g_RootDirectory] points to a live block
    whose bytes are [dir], all written, and which holds [dirEntryCount]
    entries. *)
Definition root_directory_loaded (s : state) (b : nat) (dir : list byte) : Prop :=
  g_RootDirectory s = Ptr b 0 /\
  nth_error (heap s) b = Some (Some (map Some dir)) /\
  sizeof_DirectoryEntry * dirEntryCount (BootSector_of_bytes (g_BootSector s))
    <= Z.of_nat (length dir).

(** Equality of byte arrays, decided. *)
Definition bytes_eqb (a b : list byte) : bool :=
  (length a =? length b)%nat && (compare_bytes a b =? 0).

(** The end of [main]: both buffers are released, then [main] returns. *)
Definition release_and_return (r : Z) : M Z :=
  s <- get ;; free (g_Fat s) ;;;
  s <- get ;; free (g_RootDirectory s) ;;; ret r.

(** ** Disk images *)

Module Image.

(** The byte of value [z] modulo 256. *)
Definition byte_of_Z (z : Z) : byte :=
  match Byte.of_N (Z.to_N (z mod 256)) with
  | Some b => b
  | None => x00
  end.

(** [z] on [n] bytes, least significant byte first. *)
Fixpoint le_bytes (n : nat) (z : Z) : list byte :=
  match n with
  | O => []
  | S n' => byte_of_Z z :: le_bytes n' (z / 256)
  end.

(** The bytes of a string. *)
Definition ascii (s : String.string) : list byte :=
  String.list_byte_of_string s.
Arguments ascii s%_string_scope.

(** The array a C string occupies: its bytes and the terminating null. *)
Definition c_string (s : String.string) : list byte :=
  ascii s ++ [x00].
Arguments c_string s%_string_scope.

(** [l] followed by as many zero bytes as it takes to reach [n] bytes. *)
Definition pad_to (n : Z) (l : list byte) : list byte :=
  l ++ repeat x00 (Z.to_nat n - length l).

(** The 62 bytes of a FAT12 header and extended boot record. *)
Definition boot_sector (bps rsv fats dirs total spf : Z) : list byte :=
  [xeb; x3c; x90] ++ ascii "MSWIN4.1"
    ++ le_bytes 2 bps ++ le_bytes 1 1 ++ le_bytes 2 rsv ++ le_bytes 1 fats
    ++ le_bytes 2 dirs ++ le_bytes 2 total ++ [xf0] ++ le_bytes 2 spf
    ++ le_bytes 2 18 ++ le_bytes 2 2 ++ le_bytes 4 0 ++ le_bytes 4 0
    ++ [x00; x00; x29] ++ le_bytes 4 305419896
    ++ ascii "NBOS       " ++ ascii "FAT12   ".

(** The 32 bytes of a directory entry of an archive file. *)
Definition dir_entry (name83 : String.string) (cluster size : Z) : list byte :=
  ascii name83 ++ [x20; x00; x00]
    ++ le_bytes 2 0 ++ le_bytes 2 0 ++ le_bytes 2 0 ++ le_bytes 2 0
    ++ le_bytes 2 0 ++ le_bytes 2 0 ++ le_bytes 2 cluster ++ le_bytes 4 size.

Arguments dir_entry name83%_string_scope cluster size.

(** A volume: reserved region, [fats] copies of the allocation table, root
    directory, data region, [total] sectors in all. *)
Definition volume (bps rsv fats dirs total spf : Z)
    (entries : list (list byte)) : list byte :=
  pad_to (total * bps)
    (pad_to (rsv * bps) (boot_sector bps rsv fats dirs total spf)
     ++ concat (repeat (pad_to (spf * bps) [xf0; xff; xff]) (Z.to_nat fats))
     ++ concat entries).

(** A 1.44MB floppy with one file in its root directory. *)
Definition floppy : list byte :=
  volume 512 1 2 224 2880 9 [dir_entry "FILE    TXT" 2 4096].

(** The same floppy with an empty root directory. *)
Definition blank_floppy : list byte :=
  volume 512 1 2 224 2880 9 [].

(** The floppy with an end-of-directory entry and a deleted entry before
    the file: entry 0 is all zero, the name of entry 1 starts with 0xE5. *)
Definition marked_floppy : list byte :=
  volume 512 1 2 224 2880 9
    [repeat x00 32;
     xe5 :: tl (dir_entry "OLD     TXT" 3 10);
     dir_entry "FILE    TXT" 2 4096].

(** A floppy whose reserved region is 250 sectors long: the root
    directory starts at sector 250 + 2 * 9 = 268. *)
Definition far_root : list byte :=
  volume 512 250 2 224 2880 9 [dir_entry "FILE    TXT" 2 4096].

(** A floppy whose reserved region is 256 sectors long: the allocation
    table starts at sector 256. *)
Definition far_fat : list byte :=
  volume 512 256 2 224 2880 9 [dir_entry "FILE    TXT" 2 4096].

(** [far_fat] cut one sector after its reserved region. *)
Definition cut_fat : list byte :=
  firstn (Z.to_nat (257 * 512)) far_fat.

(** A header that announces sectors of zero bytes. *)
Definition zero_sector_size : list byte :=
  pad_to 1474560 (boot_sector 0 1 2 224 2880 9).

End Image.
Import Image.

(** The root directory region of [floppy]: 14 sectors from sector 19. *)
Definition floppy_root : list byte :=
  slice (Z.to_nat (19 * 512)) (Z.to_nat (14 * 512)) floppy.

(** The root directory region of [blank_floppy]. *)
Definition blank_root : list byte :=
  slice (Z.to_nat (19 * 512)) (Z.to_nat (14 * 512)) blank_floppy.

(** ** States of the program on an image *)

(** After [fopen]. *)
Definition opened (img : list byte) : state :=
  state_after (fopen (Some img)) initial_state.

(** After [ReadBootSector]. *)
Definition booted (img : list byte) : state :=
  state_after (fopen (Some img) ;;; ReadBootSector) initial_state.

(** After [ReadFAT]. *)
Definition fat_loaded (img : list byte) : state :=
  state_after (fopen (Some img) ;;; ReadBootSector ;;; ReadFAT) initial_state.

(** After [ReadRootDirectory]. *)
Definition loaded (img : list byte) : state :=
  state_after (fopen (Some img) ;;; ReadBootSector ;;; ReadFAT ;;;
               ReadRootDirectory) initial_state.

(** [ReadFAT] on [floppy], about to call [ReadDiskSectors]: the boot
    sector is decoded and the buffer of nine sectors is allocated. *)
Definition floppy_before_read : state :=
  state_after (malloc (9 * 512)) (booted floppy).

(** [ReadFAT] on [zero_sector_size], about to call [ReadDiskSectors]: the
    buffer of nine sectors of zero bytes is allocated. *)
Definition zero_sector_state : state :=
  state_after (malloc (9 * 0)) (booted zero_sector_size).

(** ** The structures, written back *)

(** The object representation of a [BootSector]: its members in
    declaration order, integers least significant byte first, no padding. *)
Definition bytes_of_BootSector (bs : BootSector) : list byte :=
  bootJumpInstruction bs ++ oemIdentifier bs
    ++ le_bytes 2 (bytesPerSector bs) ++ le_bytes 1 (sectorsPerCluster bs)
    ++ le_bytes 2 (reservedSectors bs) ++ le_bytes 1 (fatCount bs)
    ++ le_bytes 2 (dirEntryCount bs) ++ le_bytes 2 (totalSectors bs)
    ++ le_bytes 1 (mediaDescriptorType bs) ++ le_bytes 2 (sectorsPerFat bs)
    ++ le_bytes 2 (sectorsPerTrack bs) ++ le_bytes 2 (heads bs)
    ++ le_bytes 4 (hiddenSectors bs) ++ le_bytes 4 (largeSectorCount bs)
    ++ le_bytes 1 (driveNumber bs) ++ le_bytes 1 (bs_reserved bs)
    ++ le_bytes 1 (signature bs) ++ le_bytes 4 (volumeID bs)
    ++ volumeLabel bs ++ systemID bs.

(** The object representation of a [DirectoryEntry]. *)
Definition bytes_of_DirectoryEntry (e : DirectoryEntry) : list byte :=
  name e ++ le_bytes 1 (attributes e) ++ le_bytes 1 (de_reserved e)
    ++ le_bytes 1 (createdTimeTenths e) ++ le_bytes 2 (creationTime e)
    ++ le_bytes 2 (creationDate e) ++ le_bytes 2 (accessedDate e)
    ++ le_bytes 2 (firstClusterHigh e) ++ le_bytes 2 (modifiedTime e)
    ++ le_bytes 2 (modifiedDate e) ++ le_bytes 2 (firstClusterLow e)
    ++ le_bytes 4 (size e).

(** ** The regions of an image *)

(** The header of an image, as [ReadBootSector] leaves it in [g_BootSector]. *)
Definition header (img : list byte) : list byte :=
  firstn (Z.to_nat sizeof_BootSector) img.

(** The byte offset [ReadFAT] seeks to: the sector number goes through the
    [uint8_t] parameter of [ReadDiskSectors]. *)
Definition table_offset (bs : BootSector) : Z :=
  uint8_t (reservedSectors bs) * bytesPerSector bs.

(** The size of the buffer of [ReadFAT]. *)
Definition table_bytes (bs : BootSector) : Z :=
  sectorsPerFat bs * bytesPerSector bs.

(** The sector count of [ReadRootDirectory]: the quotient, plus one when
    the remainder is positive. *)
Definition root_sectors (bs : BootSector) : Z :=
  let size := sizeof_DirectoryEntry * dirEntryCount bs in
  if size mod bytesPerSector bs >? 0 then size / bytesPerSector bs + 1
  else size / bytesPerSector bs.

(** The byte offset [ReadRootDirectory] seeks to. *)
Definition root_offset (bs : BootSector) : Z :=
  uint8_t (reservedSectors bs + sectorsPerFat bs * fatCount bs)
  * bytesPerSector bs.

(** The size of the buffer of [ReadRootDirectory]. *)
Definition root_bytes (bs : BootSector) : Z :=
  root_sectors bs * bytesPerSector bs.

(** The bytes of [img] that [ReadFAT] loads, when they are all there. *)
Definition table_region (img : list byte) : list byte :=
  let bs := BootSector_of_bytes (header img) in
  slice (Z.to_nat (table_offset bs)) (Z.to_nat (table_bytes bs)) img.

(** The bytes of [img] that [ReadRootDirectory] loads. *)
Definition root_region (img : list byte) : list byte :=
  let bs := BootSector_of_bytes (header img) in
  slice (Z.to_nat (root_offset bs)) (Z.to_nat (root_bytes bs)) img.

(** The library calls of the three loading stages on an image that holds
    both regions. *)
Definition loading_trace (img : list byte) : list event :=
  let bs := BootSector_of_bytes (header img) in
  [Efopen true; Efread sizeof_BootSector 1 0 1;
   Emalloc (table_bytes bs) (Ptr 0 0); Efseek (table_offset bs) 0;
   Efread (bytesPerSector bs) (sectorsPerFat bs) (table_offset bs) (sectorsPerFat bs);
   Emalloc (root_bytes bs) (Ptr 1 0); Efseek (root_offset bs) 0;
   Efread (bytesPerSector bs) (root_sectors bs) (root_offset bs) (root_sectors bs)].

(** The state after [ReadBootSector] on an image that holds a header. *)
Definition after_boot (img : list byte) : state :=
  mkState (mkFILE img sizeof_BootSector) [] (header img) NULL NULL
          (firstn 2 (loading_trace img)).

(** The state after [ReadFAT] on an image that holds the table region. *)
Definition after_table (img : list byte) : state :=
  let bs := BootSector_of_bytes (header img) in
  mkState (mkFILE img (table_offset bs + table_bytes bs))
          [Some (map Some (table_region img))]
          (header img) (Ptr 0 0) NULL
          (firstn 5 (loading_trace img)).

(** The state after [ReadRootDirectory] on an image that holds both
    regions. *)
Definition after_root (img : list byte) : state :=
  let bs := BootSector_of_bytes (header img) in
  mkState (mkFILE img (root_offset bs + root_bytes bs))
          [Some (map Some (table_region img)); Some (map Some (root_region img))]
          (header img) (Ptr 0 0) (Ptr 1 0)
          (loading_trace img).

(** ** Small volumes *)

(** A volume of 40 sectors with two files: one reserved sector, two
    tables of one sector each, a root directory of 16 entries in sector 3. *)
Definition small_volume : list byte :=
  volume 512 1 2 16 40 1
    [dir_entry "KERNEL  BIN" 2 300; dir_entry "FILE    TXT" 3 40].

(** [small_volume] cut inside its header. *)
Definition small_cut_header : list byte := firstn 40 small_volume.

(** [small_volume] cut inside its first table. *)
Definition small_cut_table : list byte := firstn 1000 small_volume.


(** A header that announces sectors of zero bytes. *)
Definition small_zero_sector_size : list byte := boot_sector 0 1 2 16 40 1.

(** A header that announces a table of 65535 sectors of 65535 bytes. *)
Definition small_huge_table : list byte := boot_sector 65535 1 2 16 40 65535.

(** [small_volume] with its header decoded and a buffer of two sectors
    allocated. *)
Definition small_scratch : state :=
  state_after (malloc 1024) (after_boot small_volume).

(** * Properties *)

(** ** Tactics *)

(** Reduce the projections of an updated state. *)
Ltac proj :=
  cbn [g_BootSector set_disk log heap disk g_Fat g_RootDirectory trace
       position contents set_heap set_g_Fat set_g_RootDirectory set_g_BootSector].

(** Split conjunctions, and nothing else. *)
Ltac split_all := repeat match goal with |- _ /\ _ => split end.

(** ** Bytes, integers and arrays *)

Lemma byte_val_range (b : byte) : 0 <= byte_val b < 256.
Proof.
  unfold byte_val. pose proof (Byte.to_N_bounded b). lia.
Qed.

Lemma byte_val_inj (x y : byte) : byte_val x = byte_val y -> x = y.
Proof.
  unfold byte_val. intros H.
  apply N2Z.inj in H.
  pose proof (Byte.of_to_N x) as Hx. pose proof (Byte.of_to_N y) as Hy.
  rewrite H in Hx. congruence.
Qed.

Lemma le_uint_range (bs : list byte) :
  0 <= le_uint bs < 256 ^ Z.of_nat (length bs).
Proof.
  induction bs as [|b rest IH].
  - cbn. lia.
  - cbn [le_uint length]. rewrite Nat2Z.inj_succ, Z.pow_succ_r by lia.
    pose proof (byte_val_range b). lia.
Qed.

Lemma le_uint_firstn_range (n : nat) (m : list byte) :
  0 <= le_uint (firstn n m) < 256 ^ Z.of_nat n.
Proof.
  pose proof (le_uint_range (firstn n m)) as H.
  pose proof (firstn_le_length n m) as Hlen.
  assert (256 ^ Z.of_nat (length (firstn n m)) <= 256 ^ Z.of_nat n)
    by (apply Z.pow_le_mono_r; lia).
  lia.
Qed.

Lemma uint8_small z : 0 <= z < 2 ^ 8 -> uint8_t z = z.
Proof. intros. unfold uint8_t. now apply Z.mod_small. Qed.

Lemma uint32_small z : 0 <= z < 2 ^ 32 -> uint32_t z = z.
Proof. intros. unfold uint32_t. now apply Z.mod_small. Qed.

Lemma compare_bytes_refl (a : list byte) : compare_bytes a a = 0.
Proof.
  induction a as [|x a IH]; cbn; [reflexivity|].
  now rewrite Z.eqb_refl.
Qed.

(** [memcmp] returns zero exactly on equal arrays. *)
Lemma compare_bytes_eq (a b : list byte) :
  length a = length b -> (compare_bytes a b = 0 <-> a = b).
Proof.
  revert b. induction a as [|x a IH]; intros [|y b] Hlen; cbn in Hlen; try discriminate.
  - cbn. tauto.
  - cbn. destruct (Z.eqb_spec (byte_val x) (byte_val y)) as [E|NE].
    + apply byte_val_inj in E. subst y.
      rewrite IH by lia. split; [congruence | now inversion 1].
    + split; [lia | intros H; inversion H; subst; contradiction].
Qed.

Lemma bytes_eqb_eq (a b : list byte) : bytes_eqb a b = true <-> a = b.
Proof.
  unfold bytes_eqb. rewrite andb_true_iff, Nat.eqb_eq, Z.eqb_eq. split.
  - intros [Hlen Hcmp]. now apply compare_bytes_eq.
  - intros ->. split; [reflexivity | apply compare_bytes_refl].
Qed.

(** A property of the indices below [n], checked one index at a time. *)
Lemma forall_below (n : Z) (f : Z -> bool) :
  forallb f (map Z.of_nat (seq 0 (Z.to_nat n))) = true ->
  forall j, 0 <= j < n -> f j = true.
Proof.
  intros H j Hj. rewrite forallb_forall in H. apply H.
  rewrite <- (Z2Nat.id j) by lia. apply in_map, in_seq. lia.
Qed.

Lemma defined_bytes_map_Some (bs : list byte) :
  defined_bytes (map Some bs) = Some bs.
Proof.
  induction bs as [|b bs IH]; cbn; [reflexivity | now rewrite IH].
Qed.

Lemma slice_map {A B : Type} (f : A -> B) (ofs n : nat) (m : list A) :
  slice ofs n (map f m) = map f (slice ofs n m).
Proof.
  unfold slice. now rewrite skipn_map, firstn_map.
Qed.

Lemma slice_length {A : Type} (ofs n : nat) (m : list A) :
  (ofs + n <= length m)%nat -> length (slice ofs n m) = n.
Proof.
  intros H. unfold slice. rewrite length_firstn, length_skipn. lia.
Qed.

Lemma length_slice_full {A : Type} (ofs n : nat) (m : list A) :
  (ofs + n <= length m)%nat -> length (firstn n (skipn ofs m)) = n.
Proof. intros H. rewrite length_firstn, length_skipn. lia. Qed.

Lemma slice_firstn {A : Type} (ofs n k : nat) (m : list A) :
  (ofs + n <= k)%nat -> slice ofs n (firstn k m) = slice ofs n m.
Proof.
  intros H. unfold slice.
  rewrite !firstn_skipn_comm, firstn_firstn.
  now rewrite Nat.min_l by lia.
Qed.

Lemma overwrite_all {A : Type} (data m : list A) :
  length data = length m -> overwrite 0 data m = data.
Proof.
  intros H. unfold overwrite. cbn.
  rewrite skipn_all2 by lia. apply app_nil_r.
Qed.

Lemma nth_error_set_nth {A : Type} (n : nat) (x : A) (l : list A) :
  (n < length l)%nat -> nth_error (set_nth n x l) n = Some x.
Proof.
  revert l. induction n as [|n IH]; intros [|h t] H; cbn in *; try lia.
  - reflexivity.
  - apply IH. lia.
Qed.

Lemma nth_error_set_nth_other {A : Type} (n k : nat) (x : A) (l : list A) :
  n <> k -> nth_error (set_nth n x l) k = nth_error l k.
Proof.
  revert k l. induction n as [|n IH]; intros [|k] [|h t] H; cbn; try reflexivity; try lia.
  apply IH. lia.
Qed.

Lemma length_set_nth {A : Type} (n : nat) (x : A) (l : list A) :
  length (set_nth n x l) = length l.
Proof.
  revert l. induction n as [|n IH]; intros [|h t]; cbn; auto.
Qed.

Lemma set_nth_same {A : Type} (n : nat) (x : A) (l : list A) :
  nth_error l n = Some x -> set_nth n x l = l.
Proof.
  revert l. induction n as [|n IH]; intros [|h t] H; cbn in *; try congruence.
  f_equal. now apply IH.
Qed.

(** ** The layout of the structures *)

(** Every member of a decoded [BootSector] is in the range of its type,
    whatever the bytes. *)
Lemma BootSector_fields_range (m : list byte) :
  let bs := BootSector_of_bytes m in
  0 <= bytesPerSector bs < 2 ^ 16 /\
  0 <= reservedSectors bs < 2 ^ 16 /\
  0 <= fatCount bs < 2 ^ 8 /\
  0 <= dirEntryCount bs < 2 ^ 16 /\
  0 <= sectorsPerFat bs < 2 ^ 16.
Proof.
  cbn -[Z.pow firstn skipn le_uint].
  repeat split;
    match goal with
    | |- context [le_uint (firstn ?n ?l)] =>
        pose proof (le_uint_firstn_range n l) as H; cbn in H; cbn; lia
    end.
Qed.

(** The offsets that [BootSector_at_offsets] and [entry_name] use are
    those of the packed layouts. *)
Lemma packed_layouts :
  packed_offsets 0 BootSector_members
    = [0; 3; 11; 13; 14; 16; 17; 19; 21; 22; 24; 26; 28; 32; 36; 37; 38; 39;
       43; 54]%nat /\
  sizeof_BootSector = 62 /\
  packed_offsets 0 DirectoryEntry_members
    = [0; 11; 12; 13; 14; 16; 18; 20; 22; 24; 26; 28]%nat /\
  sizeof_DirectoryEntry = 32.
Proof. repeat split. Qed.

(** Reading the members one after the other finds each at its offset. *)
Lemma BootSector_layout (m : list byte) :
  BootSector_at_offsets (BootSector_of_bytes m) m.
Proof.
  unfold BootSector_at_offsets, BootSector_of_bytes, take_array, take_uint, uint_at, slice.
  cbn [bootJumpInstruction oemIdentifier bytesPerSector sectorsPerCluster
       reservedSectors fatCount dirEntryCount totalSectors mediaDescriptorType
       sectorsPerFat sectorsPerTrack heads hiddenSectors largeSectorCount
       driveNumber bs_reserved signature volumeID volumeLabel systemID].
  repeat rewrite skipn_skipn. cbn [Nat.add].
  repeat split; reflexivity.
Qed.

Lemma BootSector_layout_prefix (m : list byte) :
  BootSector_at_offsets (BootSector_of_bytes (firstn 62 m)) m.
Proof.
  pose proof (BootSector_layout (firstn 62 m)) as H.
  unfold BootSector_at_offsets, uint_at in *.
  rewrite !slice_firstn in H by lia. exact H.
Qed.

Lemma entry_name_bytes (dir : list byte) (i : Z) :
  entry_name dir i = firstn 11 (entry_bytes dir i).
Proof.
  unfold entry_name, entry_bytes, slice. rewrite firstn_firstn. reflexivity.
Qed.

(** ** Memory and library calls *)

Lemma store_heap (s : state) (b : nat) (cells : list cell) (data : list byte) :
  nth_error (heap s) b = Some (Some cells) ->
  (length data <= length cells)%nat ->
  store (Ptr b 0) data s
    = Ok (tt, set_heap (set_nth b (Some (overwrite 0 (map Some data) cells))
                                (heap s)) s).
Proof.
  intros Hb Hlen. unfold store. destruct data as [|x data].
  - unfold overwrite. cbn. rewrite set_nth_same by exact Hb. now destruct s.
  - rewrite Hb.
    replace ((0 <=? 0) && (0 + Z.of_nat (length (x :: data)) <=? Z.of_nat (length cells)))
      with true by (symmetry; apply andb_true_iff; split; apply Z.leb_le; lia).
    reflexivity.
Qed.

Lemma store_BootSector (s : state) (data : list byte) :
  (length data <= length (g_BootSector s))%nat ->
  store AddrBootSector data s
    = Ok (tt, set_g_BootSector (overwrite 0 data (g_BootSector s)) s).
Proof.
  intros Hlen. unfold store. destruct data as [|x data].
  - unfold overwrite. cbn. now destruct s.
  - apply Nat.leb_le in Hlen. now rewrite Hlen.
Qed.

Lemma load_heap (s : state) (b : nat) (dir : list byte) (ofs : Z) (n : nat) :
  nth_error (heap s) b = Some (Some (map Some dir)) ->
  0 <= ofs -> ofs + Z.of_nat n <= Z.of_nat (length dir) ->
  load (Ptr b ofs) n s = Ok (slice (Z.to_nat ofs) n dir, s).
Proof.
  intros Hb Hofs Hfit. unfold load. rewrite Hb, length_map.
  replace ((0 <=? ofs) && (ofs + Z.of_nat n <=? Z.of_nat (length dir)))
    with true by (symmetry; apply andb_true_iff; split; apply Z.leb_le; lia).
  now rewrite slice_map, defined_bytes_map_Some.
Qed.

Lemma load_frame (p : pointer) (n : nat) (s s' : state) (bs : list byte) :
  load p n s = Ok (bs, s') -> s' = s.
Proof.
  unfold load. intros H.
  repeat match type of H with
         | match ?x with _ => _ end = _ => destruct x; try discriminate
         | (if ?x then _ else _) = _ => destruct x; try discriminate
         end; congruence.
Qed.

(** The number of complete items in a transfer that was asked for
    [nmemb] items of [sz] bytes is [nmemb] exactly when nothing is missing. *)
Lemma items_complete (len sz nmemb : Z) :
  0 < sz -> 0 <= len <= sz * nmemb ->
  ((len / sz =? nmemb) = true <-> len = sz * nmemb).
Proof.
  intros Hsz Hlen. rewrite Z.eqb_eq. split.
  - intros H. subst nmemb.
    pose proof (Z.mul_div_le len sz Hsz). lia.
  - intros ->. rewrite Z.mul_comm. now apply Z.div_mul; lia.
Qed.

(** A computation whose value is known runs to the state it leaves. *)
Lemma value_of_run {A : Type} (m : M A) (s : state) (a : A) :
  value_of (m s) = Some a -> m s = Ok (a, state_after m s).
Proof.
  unfold value_of, state_after. destruct (m s) as [[a' s']|]; congruence.
Qed.

(** ** [ReadBootSector] *)

(** What [ReadBootSector] does in any state: one read of one item of 62
    bytes into [g_BootSector], complete or not. *)
Lemma ReadBootSector_spec (s : state) :
  let data := firstn (Z.to_nat sizeof_BootSector) (remaining (disk s)) in
  let items := Z.of_nat (length data) / sizeof_BootSector in
  length (g_BootSector s) = Z.to_nat sizeof_BootSector ->
  exists s',
    ReadBootSector s = Ok (items >? 0, s') /\
    g_BootSector s' = overwrite 0 data (g_BootSector s) /\
    g_Fat s' = g_Fat s /\
    g_RootDirectory s' = g_RootDirectory s /\
    heap s' = heap s /\
    contents (disk s') = contents (disk s) /\
    position (disk s') = position (disk s) + Z.of_nat (length data) /\
    trace s' = trace s ++ [Efread sizeof_BootSector 1 (position (disk s)) items].
Proof.
  intros data items Hobj.
  assert (Hlen : (length data <= length (g_BootSector s))%nat)
    by (rewrite Hobj; unfold data; apply firstn_le_length).
  unfold ReadBootSector, bind, ret, fread.
  change ((sizeof_BootSector =? 0) || (1 =? 0)) with false. cbv iota.
  rewrite Z.mul_1_r. fold data. rewrite (store_BootSector s data Hlen).
  fold items.
  eexists. split; [reflexivity|]. proj.
  repeat split; reflexivity.
Qed.

(** C8.  [ReadBootSector], called on the stream positioned at the start of
    the image, asks for one item of [sizeof (BootSector)] = 62 bytes, the
    packed size of the structure.  It fails exactly when the image holds
    fewer than 62 bytes.  When it succeeds, [g_BootSector] holds the first
    62 bytes of the image and every member is read at the offset that the
    sizes of the members before it add up to.  Success depends on the length
    of the image alone: no value of any member is rejected. *)
Theorem ReadBootSector_decodes (s : state) (img : list byte) :
  disk s = mkFILE img 0 ->
  length (g_BootSector s) = Z.to_nat sizeof_BootSector ->
  exists ok s',
    ReadBootSector s = Ok (ok, s') /\
    (ok = false <-> Z.of_nat (length img) < sizeof_BootSector) /\
    trace s' = trace s ++ [Efread sizeof_BootSector 1 0 (if ok then 1 else 0)] /\
    position (disk s') = Z.min (Z.of_nat (length img)) sizeof_BootSector /\
    (ok = true ->
       g_BootSector s' = firstn (Z.to_nat sizeof_BootSector) img /\
       BootSector_at_offsets (BootSector_of_bytes (g_BootSector s')) img).
Proof.
  intros Hdisk Hobj.
  destruct (ReadBootSector_spec s Hobj)
    as (s' & Hrun & Hbs & _ & _ & _ & _ & Hpos & Htr).
  rewrite Hdisk in *. unfold remaining in *. cbn [position contents skipn] in *.
  change (Z.to_nat 0) with 0%nat in *. cbn [skipn] in *.
  set (data := firstn (Z.to_nat sizeof_BootSector) img) in *.
  assert (Hlen : Z.of_nat (length data) = Z.min (Z.of_nat (length img)) sizeof_BootSector).
  { unfold data. rewrite length_firstn. unfold sizeof_BootSector. lia. }
  unfold sizeof_BootSector in *.
  destruct (Z.lt_ge_cases (Z.of_nat (length img)) 62) as [Hshort|Hfull].
  - assert (Hitems : Z.of_nat (length data) / 62 = 0) by (apply Z.div_small; lia).
    rewrite Hitems in *.
    exists false, s'.
    split; [exact Hrun|]. split; [split; [intros _; lia | reflexivity]|].
    split; [exact Htr|]. split; [lia | discriminate].
  - assert (Hitems : Z.of_nat (length data) / 62 = 1).
    { replace (Z.of_nat (length data)) with 62 by lia. reflexivity. }
    rewrite Hitems in *.
    exists true, s'.
    split; [exact Hrun|]. split; [split; [discriminate | lia]|].
    split; [exact Htr|]. split; [lia|]. intros _.
    rewrite Hbs, overwrite_all by lia.
    split; [reflexivity | apply BootSector_layout_prefix].
Qed.

(** The boot sector of [floppy]. *)
Lemma ReadBootSector_decodes_witness :
  disk (opened floppy) = mkFILE floppy 0 /\
  exists (s' : state),
    ReadBootSector (opened floppy) = Ok (true, s') /\
    trace s' = trace (opened floppy) ++ [Efread 62 1 0 1] /\
    bytesPerSector (BootSector_of_bytes (g_BootSector s')) = uint_at 11 2 floppy.
Proof.
  split; [reflexivity|].
  destruct (ReadBootSector_decodes (opened floppy) floppy eq_refl eq_refl)
    as (ok & s' & Hrun & Hfail & Htr & _ & Hgood).
  assert (Hok : ok = true).
  { destruct ok; [reflexivity|]. exfalso.
    assert (Hlt : Z.of_nat (length floppy) < sizeof_BootSector) by now apply Hfail.
    assert (Hnot : (Z.of_nat (length floppy) <? sizeof_BootSector) = false)
      by (vm_compute; reflexivity).
    apply Z.ltb_lt in Hlt. congruence. }
  subst ok. exists s'. split; [exact Hrun|]. split; [exact Htr|].
  destruct (Hgood eq_refl) as (_ & Hlayout). apply Hlayout.
Defined.

(** ** [ReadDiskSectors] *)

(** What a call of [ReadDiskSectors] on a live buffer that can hold
    [count] sectors does: one seek to sector [lba] reduced to eight bits,
    one read of [count] items of [bytesPerSector] bytes. *)
Lemma ReadDiskSectors_spec (s : state) (lba count : Z) (b : nat) (cells : list cell) :
  let bs := BootSector_of_bytes (g_BootSector s) in
  let off := uint8_t lba * bytesPerSector bs in
  let want := bytesPerSector bs * uint32_t count in
  let data := firstn (Z.to_nat want) (skipn (Z.to_nat off) (contents (disk s))) in
  let items := Z.of_nat (length data) / bytesPerSector bs in
  nth_error (heap s) b = Some (Some cells) ->
  want <= Z.of_nat (length cells) ->
  exists s',
    ReadDiskSectors lba count (Ptr b 0) s = Ok (items =? uint32_t count, s') /\
    g_BootSector s' = g_BootSector s /\
    g_Fat s' = g_Fat s /\
    g_RootDirectory s' = g_RootDirectory s /\
    contents (disk s') = contents (disk s) /\
    position (disk s') = off + Z.of_nat (length data) /\
    trace s' = trace s ++
      [Efseek off 0; Efread (bytesPerSector bs) (uint32_t count) off items] /\
    length (heap s') = length (heap s) /\
    (forall k, k <> b -> nth_error (heap s') k = nth_error (heap s) k) /\
    nth_error (heap s') b = Some (Some (overwrite 0 (map Some data) cells)).
Proof.
  intros bs off want data items Hblock Hfit.
  pose proof (BootSector_fields_range (g_BootSector s)) as R. cbv zeta in R. fold bs in R.
  assert (Hlba : 0 <= uint8_t lba < 256) by (unfold uint8_t; apply Z.mod_pos_bound; lia).
  assert (Hcount : 0 <= uint32_t count) by (unfold uint32_t; apply Z.mod_pos_bound; lia).
  assert (Hoff : 0 <= off) by (unfold off; nia).
  assert (Hint : in_int off = true).
  { unfold in_int, INT_MIN, INT_MAX. apply andb_true_iff.
    split; apply Z.leb_le; unfold off; nia. }
  assert (Hdata : (length data <= length cells)%nat).
  { unfold data. rewrite length_firstn. lia. }
  unfold ReadDiskSectors, ReadDiskSectors_over, BootSector_now, int_expr, bind, get, ret.
  cbv beta iota zeta. fold bs. fold off.
  rewrite Hint. unfold fseek.
  destruct (Z.ltb_spec off 0) as [?|_]; [lia|].
  cbv beta iota zeta. rewrite Z.eqb_refl. cbv beta iota zeta.
  cbn [g_BootSector set_disk log heap disk g_Fat g_RootDirectory trace]. fold bs.
  unfold fread.
  destruct ((bytesPerSector bs =? 0) || (uint32_t count =? 0)) eqn:Hzero.
  - (* a zero-sized request: nothing is transferred *)
    assert (Hwant : want = 0).
    { apply orb_true_iff in Hzero. unfold want.
      destruct Hzero as [H|H]; apply Z.eqb_eq in H; rewrite H; lia. }
    assert (Hnil : data = []) by (unfold data; now rewrite Hwant).
    assert (Hitems : items = 0) by (unfold items; now rewrite Hnil).
    rewrite Hitems, Hnil.
    cbn [g_BootSector set_disk log heap disk g_Fat g_RootDirectory trace
         position contents].
    eexists. split; [reflexivity|].
    cbn [g_BootSector set_disk log heap disk g_Fat g_RootDirectory trace
         position contents length Z.of_nat].
    repeat split; try reflexivity.
    + lia.
    + now rewrite <- app_assoc.
    + rewrite Hblock. unfold overwrite. reflexivity.
  - cbn [g_BootSector set_disk log heap disk g_Fat g_RootDirectory trace
         position contents remaining].
    unfold remaining. cbn [position contents]. fold want. fold data. fold items.
    rewrite (store_heap _ b cells data); [| exact Hblock | exact Hdata].
    eexists. split; [reflexivity|].
    cbn [g_BootSector set_disk log heap disk g_Fat g_RootDirectory trace
         position contents set_heap].
    repeat split; try reflexivity.
    + now rewrite <- app_assoc.
    + apply length_set_nth.
    + intros k Hk. apply nth_error_set_nth_other. congruence.
    + apply nth_error_set_nth. apply nth_error_Some. congruence.
Qed.

(** On a stream whose seek does what [fseek] does, the body of
    [ReadDiskSectors] is [ReadDiskSectors]. *)
Lemma ReadDiskSectors_over_fseek
    (seek : Z -> M Z) (s : state) (lba count : Z) (p : pointer) :
  let off := uint8_t lba * bytesPerSector (BootSector_of_bytes (g_BootSector s)) in
  seek off s = fseek off s ->
  ReadDiskSectors_over seek lba count p s = ReadDiskSectors lba count p s.
Proof.
  intros off Hseek.
  unfold ReadDiskSectors, ReadDiskSectors_over, BootSector_now, int_expr, bind, get, ret.
  cbv beta iota zeta. fold off.
  destruct (in_int off); [|reflexivity].
  rewrite Hseek. reflexivity.
Qed.

(** After a seek that failed nothing is read. *)
Lemma ReadDiskSectors_over_refused
    (seek : Z -> M Z) (s s1 : state) (lba count r : Z) (p : pointer) :
  let off := uint8_t lba * bytesPerSector (BootSector_of_bytes (g_BootSector s)) in
  seek off s = Ok (r, s1) ->
  r <> 0 ->
  ReadDiskSectors_over seek lba count p s = Ok (false, s1).
Proof.
  intros off Hseek Hr.
  pose proof (BootSector_fields_range (g_BootSector s)) as R. cbv zeta in R.
  assert (Hlba : 0 <= uint8_t lba < 256) by (unfold uint8_t; apply Z.mod_pos_bound; lia).
  assert (Hint : in_int off = true).
  { unfold in_int, INT_MIN, INT_MAX. apply andb_true_iff.
    split; apply Z.leb_le; unfold off; nia. }
  unfold ReadDiskSectors_over, BootSector_now, int_expr, bind, get, ret.
  cbv beta iota zeta. fold off. rewrite Hint, Hseek.
  apply Z.eqb_neq in Hr. rewrite Hr. reflexivity.
Qed.

(** C4, as amended.  Let [lba] be in the range of the parameter,
    [0 .. 255], [count] be positive, and the destination be a live buffer of
    at least [count * bytesPerSector] bytes.  [ReadDiskSectors] seeks to byte
    offset [lba * bytesPerSector]; the seek is any operation a stream may
    perform, one that succeeds as on a regular file or one that fails.
    After a seek that failed it reads nothing and fails.  After a seek
    that succeeded it asks for [count] items of [bytesPerSector] bytes.
    When [bytesPerSector] is positive it fails exactly when the seek fails
    or fewer than [count * bytesPerSector] bytes lie between that offset and
    the end of the image; when it succeeds, exactly those bytes are at the
    start of the destination and the stream is positioned after them.
    When [bytesPerSector] is zero it fails. *)
Theorem ReadDiskSectors_contract
    (seek : Z -> M Z) (s : state) (lba count : Z) (b : nat) (cells : list cell) :
  let bps := bytesPerSector (BootSector_of_bytes (g_BootSector s)) in
  let off := lba * bps in
  let available := Z.of_nat (length (skipn (Z.to_nat off) (contents (disk s)))) in
  seek_operation seek ->
  0 <= lba < 2 ^ 8 ->
  0 < count < 2 ^ 32 ->
  nth_error (heap s) b = Some (Some cells) ->
  count * bps <= Z.of_nat (length cells) ->
  exists (r : Z) (s1 : state) (ok : bool) (s' : state),
    seek off s = Ok (r, s1) /\
    ReadDiskSectors_over seek lba count (Ptr b 0) s = Ok (ok, s') /\
    (r <> 0 -> ok = false /\ s' = s1) /\
    (r = 0 ->
       exists items,
         trace s' = trace s ++ [Efseek off 0; Efread bps count off items]) /\
    (0 < bps -> (ok = false <-> r <> 0 \/ available < count * bps)) /\
    (0 < bps -> ok = true ->
       position (disk s') = off + count * bps /\
       nth_error (heap s') b
         = Some (Some (map Some (slice (Z.to_nat off) (Z.to_nat (count * bps))
                                       (contents (disk s)))
                       ++ skipn (Z.to_nat (count * bps)) cells))) /\
    (bps = 0 -> ok = false).
Proof.
  intros bps off available Hseek Hlba Hcount Hblk Hfit.
  pose proof (BootSector_fields_range (g_BootSector s)) as R. cbv zeta in R.
  fold bps in R.
  assert (Hoff : uint8_t lba * bps = off) by (rewrite uint8_small by lia; reflexivity).
  destruct (Hseek off s) as [Hsame|(r & pos & Hr & Hrefused)].
  - (* the seek of a regular file *)
    assert (Hzero : fseek off s
                    = Ok (0, log (Efseek off 0)
                               (set_disk (mkFILE (contents (disk s)) off) s))).
    { unfold fseek. destruct (Z.ltb_spec off 0) as [Hneg|_]; [|reflexivity].
      unfold off in Hneg. nia. }
    rewrite (ReadDiskSectors_over_fseek seek s lba count (Ptr b 0))
      by (unfold bps in Hoff; rewrite Hoff; exact Hsame).
    destruct (ReadDiskSectors_spec s lba count b cells Hblk)
      as (s' & Hrun & _ & _ & _ & _ & Hpos & Htr & _ & _ & Hnew).
    { rewrite uint32_small by lia. fold bps. lia. }
    revert Hrun Hpos Htr Hnew.
    rewrite (uint32_small count), (uint8_small lba) by lia.
    fold bps. fold off.
    replace (bps * count) with (count * bps) by lia.
    set (data := firstn (Z.to_nat (count * bps)) (skipn (Z.to_nat off) (contents (disk s)))).
    intros Hrun Hpos Htr Hnew.
    assert (Hlen : Z.of_nat (length data) = Z.min (count * bps) available).
    { unfold data, available. rewrite length_firstn. lia. }
    eexists 0, _, _, s'. split; [rewrite Hsame; exact Hzero|].
    split; [exact Hrun|]. split; [intros H; now elim H|].
    split; [intros _; eexists; exact Htr|].
    split; [|split].
    + intros Hbps.
      assert (Hle : 0 <= Z.of_nat (length data) <= bps * count) by lia.
      pose proof (items_complete _ _ _ Hbps Hle) as Hiff.
      destruct (Z.of_nat (length data) / bps =? count).
      * split; [discriminate|]. intros [Hne|Hlt]; [now elim Hne|]. exfalso.
        assert (Z.of_nat (length data) = bps * count) by now apply Hiff. lia.
      * split; [intros _; right|reflexivity].
        assert (Z.of_nat (length data) <> bps * count)
          by (intros H; apply Hiff in H; discriminate).
        lia.
    + intros Hbps Hok.
      assert (Hle : 0 <= Z.of_nat (length data) <= bps * count) by lia.
      apply (items_complete _ _ _ Hbps Hle) in Hok.
      split; [lia|]. rewrite Hnew. unfold overwrite.
      cbn [firstn Nat.add app]. rewrite length_map.
      replace (length data) with (Z.to_nat (count * bps)) by lia.
      reflexivity.
    + intros Hz. rewrite Hz, Z.div_0_r. apply Z.eqb_neq. lia.
  - (* a seek that fails *)
    eexists r, _, false, _. split; [exact Hrefused|].
    split.
    { apply (ReadDiskSectors_over_refused seek s _ lba count r (Ptr b 0)); [|exact Hr].
      unfold bps in Hoff. rewrite Hoff. exact Hrefused. }
    split; [intros _; split; reflexivity|].
    split; [intros Hz; now elim Hr|].
    split; [intros _; split; [intros _; now left | reflexivity]|].
    split; [intros _ Hok; discriminate Hok | intros _; reflexivity].
Qed.

(** The read of the allocation table of [floppy], sector 1, nine sectors:
    from the image, and from a stream that cannot seek. *)
Lemma ReadDiskSectors_contract_witness :
  nth_error (heap floppy_before_read) 0 = Some (Some (repeat None 4608)) /\
  (exists (s' : state) (items : Z),
     ReadDiskSectors 1 9 (Ptr 0 0) floppy_before_read = Ok (true, s') /\
     trace s' = trace floppy_before_read ++ [Efseek 512 0; Efread 512 9 512 items] /\
     position (disk s') = 5120) /\
  (exists s' : state,
     ReadDiskSectors_over fseek_refused 1 9 (Ptr 0 0) floppy_before_read
       = Ok (false, s') /\
     trace s' = trace floppy_before_read ++ [Efseek 512 (-1)]).
Proof.
  assert (Hblk : nth_error (heap floppy_before_read) 0
                 = Some (Some (repeat None 4608))) by (vm_compute; reflexivity).
  assert (Hbps : bytesPerSector (BootSector_of_bytes (g_BootSector floppy_before_read)) = 512)
    by (vm_compute; reflexivity).
  assert (Hfit : 9 * bytesPerSector (BootSector_of_bytes (g_BootSector floppy_before_read))
                 <= Z.of_nat (length (repeat (@None byte) 4608)))
    by (apply Z.leb_le; vm_compute; reflexivity).
  split; [exact Hblk|]. split.
  - assert (Hseek : seek_operation fseek) by (intros offset s; now left).
    destruct (ReadDiskSectors_contract fseek floppy_before_read 1 9 0 (repeat None 4608)
                Hseek ltac:(lia) ltac:(lia) Hblk Hfit)
      as (r & s1 & ok & s' & Hr & Hrun & _ & Htr & Hfail & Hgood & _).
    rewrite Hbps in *.
    assert (Hr0 : r = 0).
    { unfold fseek in Hr. change (1 * 512 <? 0) with false in Hr. congruence. }
    assert (Hok : ok = true).
    { destruct ok; [reflexivity|]. exfalso.
      destruct (proj1 (Hfail ltac:(lia)) eq_refl) as [Hne|Hlt]; [now elim Hne|].
      assert (Hnot : (Z.of_nat (length (skipn (Z.to_nat (1 * 512))
                                 (contents (disk floppy_before_read)))) <? 9 * 512)
                     = false) by (vm_compute; reflexivity).
      apply Z.ltb_lt in Hlt. congruence. }
    subst ok. destruct (Htr Hr0) as (items & Htrace).
    exists s', items. split; [exact Hrun|]. split; [exact Htrace|].
    apply Hgood; [lia | reflexivity].
  - assert (Hseek : seek_operation fseek_refused).
    { intros offset s. right. exists (-1), (position (disk s)).
      split; [lia|]. unfold fseek_refused. destruct s as [[c p] h g f r t]. reflexivity. }
    destruct (ReadDiskSectors_contract fseek_refused floppy_before_read 1 9 0
                (repeat None 4608) Hseek ltac:(lia) ltac:(lia) Hblk Hfit)
      as (r & s1 & ok & s' & Hr & Hrun & Hstop & _).
    rewrite Hbps in *.
    unfold fseek_refused in Hr. injection Hr as <- <-.
    destruct (Hstop ltac:(lia)) as [-> ->].
    eexists. split; [exact Hrun|]. reflexivity.
Defined.

(** C4, as stated, fails twice.  When the boot sector announces sectors of
    zero bytes the seek succeeds and no byte is missing, yet the read of a
    positive number of sectors fails.  And a sector number that needs nine
    bits is reduced to eight: asked for sector 257, [ReadDiskSectors] seeks
    to sector 1 and succeeds. *)
Lemma ReadDiskSectors_beyond_contract :
  bytesPerSector (BootSector_of_bytes (g_BootSector zero_sector_state)) = 0 /\
  nth_error (heap zero_sector_state) 0 = Some (Some []) /\
  value_of (ReadDiskSectors 1 9 (Ptr 0 0) zero_sector_state) = Some false /\
  trace (state_after (ReadDiskSectors 1 9 (Ptr 0 0)) zero_sector_state)
    = trace zero_sector_state ++ [Efseek 0 0; Efread 0 9 0 0] /\
  Z.of_nat (length (skipn (Z.to_nat (1 * 0)) (contents (disk zero_sector_state))))
    = 1474560 /\
  ~ 1474560 < 9 * 0 /\
  bytesPerSector (BootSector_of_bytes (g_BootSector floppy_before_read)) = 512 /\
  value_of (ReadDiskSectors 257 9 (Ptr 0 0) floppy_before_read) = Some true /\
  trace (state_after (ReadDiskSectors 257 9 (Ptr 0 0)) floppy_before_read)
    = trace floppy_before_read ++ [Efseek 512 0; Efread 512 9 512 9] /\
  257 * 512 <> 512.
Proof.
  split_all; try (vm_compute; reflexivity); lia.
Qed.

(** ** [ReadFAT] *)

(** What [ReadFAT] does when the size of the table fits an [int]: a fresh
    block of that size, then [ReadDiskSectors] into it. *)
Lemma ReadFAT_spec (s : state) :
  let bs := BootSector_of_bytes (g_BootSector s) in
  let b := length (heap s) in
  let bytes := sectorsPerFat bs * bytesPerSector bs in
  let off := uint8_t (reservedSectors bs) * bytesPerSector bs in
  let data := firstn (Z.to_nat bytes) (skipn (Z.to_nat off) (contents (disk s))) in
  let items := Z.of_nat (length data) / bytesPerSector bs in
  bytes <= INT_MAX ->
  exists s',
    ReadFAT s = Ok (items =? sectorsPerFat bs, s') /\
    g_BootSector s' = g_BootSector s /\
    g_Fat s' = Ptr b 0 /\
    g_RootDirectory s' = g_RootDirectory s /\
    contents (disk s') = contents (disk s) /\
    position (disk s') = off + Z.of_nat (length data) /\
    trace s' = trace s ++
      [Emalloc bytes (Ptr b 0); Efseek off 0;
       Efread (bytesPerSector bs) (sectorsPerFat bs) off items] /\
    length (heap s') = S (length (heap s)) /\
    (forall k, (k < b)%nat -> nth_error (heap s') k = nth_error (heap s) k) /\
    nth_error (heap s') b
      = Some (Some (overwrite 0 (map Some data) (repeat None (Z.to_nat bytes)))).
Proof.
  intros bs b bytes off data items Hmax.
  pose proof (BootSector_fields_range (g_BootSector s)) as R. cbv zeta in R. fold bs in R.
  assert (Hint : in_int bytes = true).
  { unfold in_int, INT_MIN. apply andb_true_iff.
    split; apply Z.leb_le; unfold bytes in *; nia. }
  unfold ReadFAT, BootSector_now, int_expr, modify, malloc, bind, get, ret.
  cbv beta iota zeta. fold bs. fold bytes. rewrite Hint. cbv beta iota zeta.
  proj. fold bs. fold b.
  match goal with
  | |- context [ReadDiskSectors ?l ?c ?p ?st] =>
      destruct (ReadDiskSectors_spec st l c b (repeat None (Z.to_nat bytes)))
        as (s' & Hrun & Hbs & Hfat & Hroot & Hcont & Hpos & Htr & Hlen & Hother & Hblk)
  end.
  - proj. now rewrite nth_error_app2, Nat.sub_diag by lia.
  - proj. fold bs. rewrite repeat_length, uint32_small by lia. unfold bytes in *. nia.
  - revert Hrun Hbs Hfat Hroot Hcont Hpos Htr Hlen Hother Hblk. proj. fold bs.
    rewrite (uint32_small (sectorsPerFat bs)) by lia.
    replace (bytesPerSector bs * sectorsPerFat bs) with bytes by (unfold bytes; lia).
    fold off. fold data. fold items.
    intros Hrun Hbs Hfat Hroot Hcont Hpos Htr Hlen Hother Hblk.
    exists s'. rewrite Hrun. repeat split; try assumption.
    + rewrite Htr, <- app_assoc. reflexivity.
    + rewrite Hlen, length_app. cbn. lia.
    + intros k Hk. rewrite Hother by (fold b; lia). apply nth_error_app1. exact Hk.
Qed.

(** Where [ReadFAT] reads, when the number of reserved sectors fits the
    eight bits of the parameter of [ReadDiskSectors] and the size of the
    table fits an [int]. *)
Lemma ReadFAT_placement (s : state) :
  let bs := BootSector_of_bytes (g_BootSector s) in
  let bytes := sectorsPerFat bs * bytesPerSector bs in
  let off := reservedSectors bs * bytesPerSector bs in
  let available := Z.of_nat (length (skipn (Z.to_nat off) (contents (disk s)))) in
  reservedSectors bs < 2 ^ 8 ->
  bytes <= INT_MAX ->
  exists (ok : bool) (s' : state) (items : Z),
    ReadFAT s = Ok (ok, s') /\
    g_Fat s' = Ptr (length (heap s)) 0 /\
    trace s' = trace s ++
      [Emalloc bytes (Ptr (length (heap s)) 0); Efseek off 0;
       Efread (bytesPerSector bs) (sectorsPerFat bs) off items] /\
    (0 < bytesPerSector bs -> (ok = true <-> bytes <= available)) /\
    (ok = true ->
       nth_error (heap s') (length (heap s))
         = Some (Some (map Some (slice (Z.to_nat off) (Z.to_nat bytes)
                                       (contents (disk s)))))).
Proof.
  intros bs bytes off available Hrsv Hmax.
  pose proof (BootSector_fields_range (g_BootSector s)) as R. cbv zeta in R. fold bs in R.
  destruct (ReadFAT_spec s Hmax)
    as (s' & Hrun & _ & Hfat & _ & _ & _ & Htr & _ & _ & Hblk).
  fold bs bytes in Hrun, Htr, Hblk.
  rewrite (uint8_small (reservedSectors bs)) in Hrun, Htr, Hblk by lia.
  fold off in Hrun, Htr, Hblk.
  set (data := firstn (Z.to_nat bytes) (skipn (Z.to_nat off) (contents (disk s)))) in *.
  assert (Hlen : Z.of_nat (length data) = Z.min bytes available).
  { unfold data, available. rewrite length_firstn. unfold bytes. nia. }
  assert (Hbytes : 0 <= bytes) by (unfold bytes; nia).
  eexists _, s', _. split; [exact Hrun|]. split; [exact Hfat|]. split; [exact Htr|].
  split.
  - intros Hbps.
    assert (Hle : 0 <= Z.of_nat (length data) <= bytesPerSector bs * sectorsPerFat bs)
      by (unfold bytes in *; lia).
    rewrite (items_complete _ _ _ Hbps Hle). unfold bytes in *. lia.
  - intros Hok.
    assert (Hfull : Z.of_nat (length data) = bytes).
    { destruct (Z.eq_dec (bytesPerSector bs) 0) as [Hz|Hnz].
      - unfold bytes in *. rewrite Hz in *. lia.
      - assert (Hbps : 0 < bytesPerSector bs) by lia.
        assert (Hle : 0 <= Z.of_nat (length data) <= bytesPerSector bs * sectorsPerFat bs)
          by (unfold bytes in *; lia).
        apply (items_complete _ _ _ Hbps Hle) in Hok. unfold bytes. lia. }
    rewrite Hblk, overwrite_all; [reflexivity|].
    rewrite length_map, repeat_length. lia.
Qed.

Lemma ReadFAT_frame (s s' : state) (ok : bool) :
  ReadFAT s = Ok (ok, s') -> g_BootSector s' = g_BootSector s.
Proof.
  intros H.
  set (bs := BootSector_of_bytes (g_BootSector s)).
  destruct (in_int (sectorsPerFat bs * bytesPerSector bs)) eqn:Hint.
  - destruct (ReadFAT_spec s) as (s1 & Hrun & Hbs & _).
    + fold bs. unfold in_int in Hint. apply andb_true_iff in Hint.
      destruct Hint as [_ Hle]. now apply Z.leb_le in Hle.
    + congruence.
  - exfalso. revert H.
    unfold ReadFAT, BootSector_now, int_expr, bind, get, ret, undefined.
    cbv beta iota zeta. fold bs. rewrite Hint. discriminate.
Qed.

(** C6.  The claim fails on the code.  On the volume [far_fat] (512-byte
    sectors, 256 reserved sectors, tables of 9 sectors) the allocation table
    starts at sector 256.  [ReadFAT] allocates the 9 * 512 bytes, but
    [ReadDiskSectors] receives the sector number in a [uint8_t]: the seek
    goes to sector 256 mod 256 = 0 and the buffer is filled with the boot
    sector and what follows it, not with the table. *)
Theorem ReadFAT_far_fat :
  let bs := BootSector_of_bytes (g_BootSector (booted far_fat)) in
  bytesPerSector bs = 512 /\
  reservedSectors bs = 256 /\
  sectorsPerFat bs = 9 /\
  Z.of_nat (length far_fat) = 2880 * 512 /\
  value_of (ReadFAT (booted far_fat)) = Some true /\
  trace (state_after ReadFAT (booted far_fat))
    = trace (booted far_fat) ++
      [Emalloc 4608 (Ptr 0 0); Efseek 0 0; Efread 512 9 0 9] /\
  nth_error (heap (state_after ReadFAT (booted far_fat))) 0
    = Some (Some (map Some (slice 0 4608 far_fat))) /\
  slice (Z.to_nat (256 * 512)) 3 far_fat = [xf0; xff; xff] /\
  slice 0 3 far_fat = [xeb; x3c; x90].
Proof.
  cbv zeta. split_all; vm_compute; reflexivity.
Qed.

(** The size that [ReadFAT] hands to [malloc] is an [int] product of two
    16-bit members: with both at 65535 it overflows, and the call is
    undefined. *)
Lemma ReadFAT_size_overflow :
  INT_MAX < 65535 * 65535 /\
  value_of (ReadFAT (booted (boot_sector 65535 1 2 224 2880 65535))) = None.
Proof.
  split; [reflexivity | vm_compute; reflexivity].
Qed.

(** ** [ReadRootDirectory] *)

(** The sector count of the root directory is the ceiling of the quotient. *)
Lemma sectors_ceiling (size bps : Z) :
  0 <= size -> 0 < bps ->
  let sectors := if size mod bps >? 0 then size / bps + 1 else size / bps in
  0 <= sectors /\
  size <= sectors * bps /\
  sectors * bps < size + bps /\
  (forall k, size <= k * bps -> sectors <= k).
Proof.
  intros Hsize Hbps sectors.
  pose proof (Z.div_mod size bps ltac:(lia)) as Hdm.
  pose proof (Z.mod_pos_bound size bps Hbps) as Hmod.
  pose proof (Z.div_pos size bps Hsize Hbps) as Hq.
  unfold sectors. destruct (Z.gtb_spec (size mod bps) 0) as [Hr|Hr].
  - repeat split; try nia.
  - repeat split; try nia.
Qed.

(** The two sector counts the specification quotes. *)
Lemma sectors_ceiling_examples :
  (if (32 * 224) mod 512 >? 0 then (32 * 224) / 512 + 1 else (32 * 224) / 512) = 14 /\
  (if (32 * 225) mod 512 >? 0 then (32 * 225) / 512 + 1 else (32 * 225) / 512) = 15.
Proof. split; reflexivity. Qed.

(** What [ReadRootDirectory] does when [bytesPerSector] is positive: a
    fresh block of [sectors] sectors, then [ReadDiskSectors] into it. *)
Lemma ReadRootDirectory_spec (s : state) :
  let bs := BootSector_of_bytes (g_BootSector s) in
  let b := length (heap s) in
  let lba := reservedSectors bs + sectorsPerFat bs * fatCount bs in
  let size := sizeof_DirectoryEntry * dirEntryCount bs in
  let sectors :=
    if size mod bytesPerSector bs >? 0 then size / bytesPerSector bs + 1
    else size / bytesPerSector bs in
  let bytes := sectors * bytesPerSector bs in
  let off := uint8_t lba * bytesPerSector bs in
  let data := firstn (Z.to_nat bytes) (skipn (Z.to_nat off) (contents (disk s))) in
  let items := Z.of_nat (length data) / bytesPerSector bs in
  0 < bytesPerSector bs ->
  exists s',
    ReadRootDirectory s = Ok (items =? sectors, s') /\
    g_BootSector s' = g_BootSector s /\
    g_Fat s' = g_Fat s /\
    g_RootDirectory s' = Ptr b 0 /\
    contents (disk s') = contents (disk s) /\
    position (disk s') = off + Z.of_nat (length data) /\
    trace s' = trace s ++
      [Emalloc bytes (Ptr b 0); Efseek off 0;
       Efread (bytesPerSector bs) sectors off items] /\
    length (heap s') = S (length (heap s)) /\
    (forall k, (k < b)%nat -> nth_error (heap s') k = nth_error (heap s) k) /\
    nth_error (heap s') b
      = Some (Some (overwrite 0 (map Some data) (repeat None (Z.to_nat bytes)))).
Proof.
  intros bs b lba size sectors bytes off data items Hbps.
  pose proof (BootSector_fields_range (g_BootSector s)) as R. cbv zeta in R. fold bs in R.
  assert (Hsize : 0 <= size < 2 ^ 21) by (unfold size, sizeof_DirectoryEntry; lia).
  destruct (sectors_ceiling size (bytesPerSector bs) ltac:(lia) Hbps)
    as (Hs0 & Hs1 & Hs2 & _). fold sectors in Hs0, Hs1, Hs2.
  assert (Hsec : 0 <= sectors < 2 ^ 22) by nia.
  assert (Hprod : in_int (sectorsPerFat bs * fatCount bs) = true).
  { unfold in_int, INT_MIN, INT_MAX. apply andb_true_iff. split; apply Z.leb_le; nia. }
  assert (Hsum : in_int lba = true).
  { unfold in_int, INT_MIN, INT_MAX. apply andb_true_iff.
    split; apply Z.leb_le; unfold lba; nia. }
  unfold ReadRootDirectory, BootSector_now, int_expr, modify, malloc, bind, get, ret.
  cbv beta iota zeta. fold bs. rewrite Hprod. cbv beta iota zeta. fold lba.
  rewrite Hsum. cbv beta iota zeta. fold bs.
  destruct (Z.eqb_spec (bytesPerSector bs) 0) as [?|_]; [lia|].
  rewrite (uint32_small (sizeof_DirectoryEntry * dirEntryCount bs)) by (fold size; lia).
  fold size.
  replace (if size mod bytesPerSector bs >? 0
           then uint32_t (size / bytesPerSector bs + 1)
           else size / bytesPerSector bs) with sectors.
  2:{ unfold sectors. destruct (size mod bytesPerSector bs >? 0); [|reflexivity].
      rewrite uint32_small; [reflexivity|].
      pose proof (Z.div_pos size (bytesPerSector bs)).
      pose proof (Z.div_le_upper_bound size (bytesPerSector bs) (2^21)). nia. }
  fold bytes. rewrite (uint32_small bytes) by (unfold bytes; nia).
  proj. fold b.
  match goal with
  | |- context [ReadDiskSectors ?l ?c ?p ?st] =>
      destruct (ReadDiskSectors_spec st l c b (repeat None (Z.to_nat bytes)))
        as (s' & Hrun & Hbs & Hfat & Hroot & Hcont & Hpos & Htr & Hlen & Hother & Hblk)
  end.
  - proj. now rewrite nth_error_app2, Nat.sub_diag by lia.
  - proj. fold bs. rewrite repeat_length, uint32_small by lia. unfold bytes in *. nia.
  - revert Hrun Hbs Hfat Hroot Hcont Hpos Htr Hlen Hother Hblk. proj. fold bs.
    rewrite (uint32_small sectors) by lia.
    rewrite (uint32_small lba) by (unfold lba; nia).
    replace (bytesPerSector bs * sectors) with bytes by (unfold bytes; lia).
    fold off. fold data. fold items.
    intros Hrun Hbs Hfat Hroot Hcont Hpos Htr Hlen Hother Hblk.
    exists s'. rewrite Hrun. repeat split; try assumption.
    + rewrite Htr, <- app_assoc. reflexivity.
    + rewrite Hlen, length_app. cbn. lia.
    + intros k Hk. rewrite Hother by (fold b; lia). apply nth_error_app1. exact Hk.
Qed.

(** Where [ReadRootDirectory] reads, when the computed sector number fits
    the eight bits of the parameter of [ReadDiskSectors]: at the sector that
    follows the reserved region and all the copies of the allocation table,
    for the least number of sectors that hold the directory. *)
Lemma ReadRootDirectory_placement (s : state) :
  let bs := BootSector_of_bytes (g_BootSector s) in
  let lba := reservedSectors bs + sectorsPerFat bs * fatCount bs in
  let size := sizeof_DirectoryEntry * dirEntryCount bs in
  0 < bytesPerSector bs ->
  lba < 2 ^ 8 ->
  exists (ok : bool) (s' : state) (sectors items : Z),
    ReadRootDirectory s = Ok (ok, s') /\
    trace s' = trace s ++
      [Emalloc (sectors * bytesPerSector bs) (Ptr (length (heap s)) 0);
       Efseek (lba * bytesPerSector bs) 0;
       Efread (bytesPerSector bs) sectors (lba * bytesPerSector bs) items] /\
    size <= sectors * bytesPerSector bs /\
    (forall k, size <= k * bytesPerSector bs -> sectors <= k).
Proof.
  intros bs lba size Hbps Hlba.
  pose proof (BootSector_fields_range (g_BootSector s)) as R. cbv zeta in R. fold bs in R.
  destruct (ReadRootDirectory_spec s Hbps) as (s' & Hrun & _ & _ & _ & _ & _ & Htr & _).
  fold bs lba size in Hrun, Htr.
  rewrite (uint8_small lba) in Htr by (unfold lba; nia).
  destruct (sectors_ceiling size (bytesPerSector bs)) as (_ & Hge & _ & Hleast);
    [unfold size, sizeof_DirectoryEntry; lia | exact Hbps |].
  eexists _, s', _, _. split; [exact Hrun|]. split; [exact Htr|].
  split; [exact Hge | exact Hleast].
Qed.

(** A successful [ReadRootDirectory] leaves the root directory loaded. *)
Lemma ReadRootDirectory_loaded (s s' : state) :
  let bs := BootSector_of_bytes (g_BootSector s) in
  let lba := reservedSectors bs + sectorsPerFat bs * fatCount bs in
  let size := sizeof_DirectoryEntry * dirEntryCount bs in
  let sectors :=
    if size mod bytesPerSector bs >? 0 then size / bytesPerSector bs + 1
    else size / bytesPerSector bs in
  let dir := slice (Z.to_nat (uint8_t lba * bytesPerSector bs))
                   (Z.to_nat (sectors * bytesPerSector bs)) (contents (disk s)) in
  0 < bytesPerSector bs ->
  ReadRootDirectory s = Ok (true, s') ->
  g_BootSector s' = g_BootSector s /\
  Z.of_nat (length dir) = sectors * bytesPerSector bs /\
  In (Emalloc (sectors * bytesPerSector bs) (Ptr (length (heap s)) 0)) (trace s') /\
  root_directory_loaded s' (length (heap s)) dir.
Proof.
  intros bs lba size sectors dir Hbps Hrun.
  pose proof (BootSector_fields_range (g_BootSector s)) as R. cbv zeta in R. fold bs in R.
  destruct (ReadRootDirectory_spec s Hbps)
    as (s1 & Hrun1 & Hbs & Hfat & Hroot & Hcont & Hpos & Htr & Hlen & Hother & Hblk).
  fold bs lba size sectors in Hrun1, Htr, Hblk, Hpos.
  fold (slice (Z.to_nat (uint8_t lba * bytesPerSector bs))
              (Z.to_nat (sectors * bytesPerSector bs)) (contents (disk s)))
    in Hrun1, Htr, Hblk, Hpos.
  fold dir in Hrun1, Htr, Hblk, Hpos.
  rewrite Hrun in Hrun1. injection Hrun1 as Hok Hs. subst s1.
  assert (Hsize : 0 <= size) by (unfold size, sizeof_DirectoryEntry; lia).
  destruct (sectors_ceiling size (bytesPerSector bs) Hsize Hbps)
    as (Hs0 & Hs1 & Hs2 & _). fold sectors in Hs0, Hs1, Hs2.
  assert (Hdirlen : Z.of_nat (length dir) = sectors * bytesPerSector bs).
  { assert (Hle : 0 <= Z.of_nat (length dir) <= bytesPerSector bs * sectors).
    { unfold dir, slice. rewrite length_firstn. lia. }
    pose proof (proj1 (items_complete _ _ _ Hbps Hle) (eq_sym Hok)). lia. }
  split; [exact Hbs|]. split; [exact Hdirlen|]. split.
  - rewrite Htr. apply in_or_app. right. left. reflexivity.
  - unfold root_directory_loaded. split; [exact Hroot|]. split.
    + rewrite Hblk. rewrite overwrite_all; [reflexivity|].
      rewrite length_map, repeat_length. lia.
    + rewrite Hbs. fold bs. fold size. lia.
Qed.

Lemma ReadRootDirectory_frame (s s' : state) (ok : bool) :
  ReadRootDirectory s = Ok (ok, s') -> g_BootSector s' = g_BootSector s.
Proof.
  intros H.
  set (bs := BootSector_of_bytes (g_BootSector s)).
  pose proof (BootSector_fields_range (g_BootSector s)) as R. cbv zeta in R. fold bs in R.
  destruct (Z.eq_dec (bytesPerSector bs) 0) as [Hz|Hnz].
  - exfalso. revert H.
    unfold ReadRootDirectory, BootSector_now, int_expr, bind, get, ret, undefined.
    cbv beta iota zeta. fold bs.
    destruct (in_int (sectorsPerFat bs * fatCount bs)); [|discriminate].
    cbv beta iota zeta.
    destruct (in_int (reservedSectors bs + sectorsPerFat bs * fatCount bs)); [|discriminate].
    cbv beta iota zeta. fold bs. rewrite Hz. discriminate.
  - destruct (ReadRootDirectory_spec s) as (s1 & Hrun & Hbs & _).
    + fold bs. lia.
    + congruence.
Qed.

(** C2.  The claim fails on the code.  On the volume [far_root]
    (512-byte sectors, 250 reserved sectors, two tables of 9 sectors, 224
    entries) the root directory starts at sector 250 + 9 * 2 = 268.
    [ReadRootDirectory] computes 268 and the right count of 14 sectors, but
    [ReadDiskSectors] receives the sector number in a [uint8_t]: the seek
    goes to sector 268 mod 256 = 12, inside the reserved region.  The read
    succeeds, and the file that the true root directory lists is reported
    missing: [main] returns -5. *)
Theorem ReadRootDirectory_far_root :
  let bs := BootSector_of_bytes (g_BootSector (fat_loaded far_root)) in
  bytesPerSector bs = 512 /\
  reservedSectors bs + sectorsPerFat bs * fatCount bs = 268 /\
  dirEntryCount bs = 224 /\
  value_of (ReadRootDirectory (fat_loaded far_root)) = Some true /\
  trace (state_after ReadRootDirectory (fat_loaded far_root))
    = trace (fat_loaded far_root) ++
      [Emalloc 7168 (Ptr 1 0); Efseek (12 * 512) 0; Efread 512 14 (12 * 512) 14] /\
  entry_name (slice (Z.to_nat (268 * 512)) (Z.to_nat (14 * 512)) far_root) 0
    = ascii "FILE    TXT" /\
  value_of (main 3 (Some far_root) (c_string "FILE    TXT") initial_state) = Some (-5).
Proof.
  cbv zeta. split_all; vm_compute; reflexivity.
Qed.

(** ** [FindFile] *)

Lemma FindFile_unfold (s : state) (name : list byte) :
  FindFile name s
  = FindFile_loop (Z.to_nat (dirEntryCount (BootSector_of_bytes (g_BootSector s))))
                  0 name s.
Proof. reflexivity. Qed.

(** The loop from index [i] on, for an argument that points to at least
    11 bytes, the first 11 being the key: either no entry of index
    [i .. i + todo - 1] has the key as its name and the result is [NULL],
    or the result is the address of the first such entry.  The state is
    not changed. *)
Lemma FindFile_loop_spec (s : state) (b : nat) (dir name : list byte) (todo : nat) :
  g_RootDirectory s = Ptr b 0 ->
  nth_error (heap s) b = Some (Some (map Some dir)) ->
  (11 <= length name)%nat ->
  let key := firstn 11 name in
  forall i : Z,
    0 <= i -> i + Z.of_nat todo < 2 ^ 32 ->
    sizeof_DirectoryEntry * (i + Z.of_nat todo) <= Z.of_nat (length dir) ->
    (FindFile_loop todo i name s = Ok (NULL, s) /\
     forall j, i <= j < i + Z.of_nat todo -> entry_name dir j <> key)
    \/
    (exists k, i <= k < i + Z.of_nat todo /\
       FindFile_loop todo i name s = Ok (Ptr b (sizeof_DirectoryEntry * k), s) /\
       entry_name dir k = key /\
       forall j, i <= j < k -> entry_name dir j <> key).
Proof.
  intros Hptr Hblk Hname key.
  induction todo as [|todo IH]; intros i Hi Hmax Hfit.
  - left. split; [reflexivity|]. intros j Hj. lia.
  - assert (Hstep : FindFile_loop (S todo) i name s
                   = if compare_bytes key (entry_name dir i) =? 0
                     then Ok (Ptr b (sizeof_DirectoryEntry * i), s)
                     else FindFile_loop todo (i + 1) name s).
    { cbn [FindFile_loop]. unfold memcmp, bind, get, ret. cbv beta iota zeta.
      rewrite Hptr. cbn [ptr_add]. rewrite Z.add_0_l.
      destruct (Nat.ltb_spec (length name) 11) as [Hshort|_]; [lia|].
      rewrite (load_heap s b dir) by (try assumption; unfold sizeof_DirectoryEntry in *; lia).
      fold (entry_name dir i). fold key.
      rewrite (uint32_small (i + 1)) by lia.
      now destruct (compare_bytes key (entry_name dir i) =? 0). }
    rewrite Hstep.
    assert (Hlen : length key = length (entry_name dir i)).
    { unfold key, entry_name. rewrite length_firstn, slice_length; [lia|].
      unfold sizeof_DirectoryEntry in *. lia. }
    pose proof (compare_bytes_eq key (entry_name dir i) Hlen) as Hcmp.
    destruct (Z.eqb_spec (compare_bytes key (entry_name dir i)) 0) as [E|NE].
    + right. exists i. repeat split; try lia.
      symmetry. now apply Hcmp.
    + assert (Hne : entry_name dir i <> key) by (intros H; apply NE, Hcmp; congruence).
      destruct (IH (i + 1)) as [[Hrun Hnone]|(k & Hk & Hrun & Hmatch & Hfirst)]; try lia.
      * left. split; [exact Hrun|]. intros j Hj.
        destruct (Z.eq_dec j i) as [->|]; [exact Hne | apply Hnone; lia].
      * right. exists k. repeat split; try lia; try assumption.
        intros j Hj. destruct (Z.eq_dec j i) as [->|]; [exact Hne | apply Hfirst; lia].
Qed.

(** [FindFile] on a loaded root directory. *)
Lemma FindFile_spec (s : state) (b : nat) (dir name : list byte) :
  root_directory_loaded s b dir ->
  (11 <= length name)%nat ->
  let n := dirEntryCount (BootSector_of_bytes (g_BootSector s)) in
  let key := firstn 11 name in
  (FindFile name s = Ok (NULL, s) /\
   forall j, 0 <= j < n -> entry_name dir j <> key)
  \/
  (exists k, 0 <= k < n /\
     FindFile name s = Ok (Ptr b (sizeof_DirectoryEntry * k), s) /\
     entry_name dir k = key /\
     forall j, 0 <= j < k -> entry_name dir j <> key).
Proof.
  intros (Hptr & Hblk & Hfit) Hname n key.
  pose proof (BootSector_fields_range (g_BootSector s)) as R. cbv zeta in R.
  fold n in R, Hfit.
  rewrite FindFile_unfold. fold n.
  destruct (FindFile_loop_spec s b dir name (Z.to_nat n) Hptr Hblk Hname 0)
    as [[Hrun Hnone]|(k & Hk & Hrun & Hmatch & Hfirst)];
    try rewrite Z2Nat.id by lia; try lia.
  - left. split; [exact Hrun|]. intros j Hj. apply Hnone. lia.
  - right. exists k. rewrite Z2Nat.id in Hk by lia.
    repeat split; try lia; assumption.
Qed.

Lemma FindFile_loop_frame (todo : nat) (name : list byte) (s s' : state) :
  forall (i : Z) (p : pointer),
    FindFile_loop todo i name s = Ok (p, s') -> s' = s.
Proof.
  induction todo as [|todo IH]; intros i p H.
  - cbn in H. unfold ret in H. congruence.
  - cbn [FindFile_loop] in H. unfold memcmp, bind, get, ret, undefined in H.
    cbv beta iota zeta in H.
    destruct (length name <? 11)%nat; [discriminate|].
    destruct (load _ 11 s) as [[bs s1]|] eqn:Hload; [|discriminate].
    apply load_frame in Hload. subst s1.
    destruct (compare_bytes (firstn 11 name) bs =? 0).
    + congruence.
    + now apply IH in H.
Qed.

(** [FindFile] changes nothing, in any state. *)
Lemma FindFile_frame (name : list byte) (s s' : state) (p : pointer) :
  FindFile name s = Ok (p, s') -> s' = s.
Proof.
  rewrite FindFile_unfold. apply FindFile_loop_frame.
Qed.

(** With no entry to examine [FindFile] touches no memory: it returns
    [NULL] in every state, for every argument. *)
Lemma FindFile_no_entries (s : state) (name : list byte) :
  dirEntryCount (BootSector_of_bytes (g_BootSector s)) = 0 ->
  FindFile name s = Ok (NULL, s).
Proof.
  intros H. rewrite FindFile_unfold, H. reflexivity.
Qed.

(** C3.  On a loaded root directory and for an 11-byte [name], [FindFile]
    always returns, and leaves the state as it was.  It returns the address
    of entry [i] exactly when [i] is the smallest index below
    [dirEntryCount] whose 11-byte name field equals [name], so among
    duplicates the first by index wins; it returns [NULL] exactly when no
    entry of index [0 .. dirEntryCount - 1] has that name.  The whole
    capacity is scanned: a match at any index below [dirEntryCount] is
    never missed, whatever the first name byte of that entry or of the
    entries before it (0x00 does not stop the scan, 0xE5 is not skipped). *)
Theorem FindFile_first_match (s : state) (b : nat) (dir name : list byte) :
  root_directory_loaded s b dir ->
  length name = 11%nat ->
  let n := dirEntryCount (BootSector_of_bytes (g_BootSector s)) in
  (exists p, FindFile name s = Ok (p, s)) /\
  (forall i,
     FindFile name s = Ok (Ptr b (sizeof_DirectoryEntry * i), s) <->
     0 <= i < n /\ entry_name dir i = name /\
     forall j, 0 <= j < i -> entry_name dir j <> name) /\
  (FindFile name s = Ok (NULL, s) <->
   forall j, 0 <= j < n -> entry_name dir j <> name) /\
  (forall i, 0 <= i < n -> entry_name dir i = name ->
     exists k, 0 <= k <= i /\
       FindFile name s = Ok (Ptr b (sizeof_DirectoryEntry * k), s)).
Proof.
  intros Hloaded Hname n.
  pose proof (FindFile_spec s b dir name Hloaded ltac:(lia)) as Hspec.
  cbv zeta in Hspec. fold n in Hspec. rewrite firstn_all2 in Hspec by lia.
  destruct Hspec as [[Hrun Hnone]|(k & Hk & Hrun & Hmatch & Hfirst)].
  - split; [eauto|]. split; [|split].
    + intros i. rewrite Hrun. split; [discriminate|].
      intros (Hi & Hm & _). exfalso. exact (Hnone i Hi Hm).
    + tauto.
    + intros i Hi Hm. exfalso. exact (Hnone i Hi Hm).
  - split; [eauto|]. split; [|split].
    + intros i. rewrite Hrun. split.
      * intros H.
        assert (Heq : sizeof_DirectoryEntry * k = sizeof_DirectoryEntry * i)
          by congruence.
        assert (i = k) by (unfold sizeof_DirectoryEntry in Heq; lia).
        subst i. auto.
      * intros (Hi & Hm & Hf).
        assert (i = k).
        { destruct (Z.lt_total i k) as [Hlt|[Heq|Hgt]]; [|exact Heq|].
          - exfalso. apply (Hfirst i); [lia | exact Hm].
          - exfalso. apply (Hf k); [lia | exact Hmatch]. }
        now subst i.
    + rewrite Hrun. split; [discriminate|].
      intros Hnone. exfalso. exact (Hnone k Hk Hmatch).
    + intros i Hi Hm. exists k. split; [|exact Hrun].
      destruct (Z.le_gt_cases k i); [lia|].
      exfalso. apply (Hfirst i); [lia | exact Hm].
Qed.

(** On the loaded [floppy] the file is found in entry 0. *)
Lemma FindFile_first_match_witness :
  root_directory_loaded (loaded floppy) 1 floppy_root /\
  FindFile (ascii "FILE    TXT") (loaded floppy) = Ok (Ptr 1 0, loaded floppy) /\
  (FindFile (ascii "NOFILE  TXT") (loaded floppy) = Ok (NULL, loaded floppy)
   <-> forall j, 0 <= j < 224 -> entry_name floppy_root j <> ascii "NOFILE  TXT").
Proof.
  assert (Hloaded : root_directory_loaded (loaded floppy) 1 floppy_root).
  { unfold root_directory_loaded. split_all; vm_compute; congruence. }
  split; [exact Hloaded|].
  destruct (FindFile_first_match (loaded floppy) 1 floppy_root
              (ascii "FILE    TXT") Hloaded eq_refl) as (_ & Hfound & _).
  destruct (FindFile_first_match (loaded floppy) 1 floppy_root
              (ascii "NOFILE  TXT") Hloaded eq_refl) as (_ & _ & Hnone & _).
  split.
  - apply (Hfound 0). split; [vm_compute; split; congruence|].
    split; [vm_compute; reflexivity|]. intros j Hj. lia.
  - exact Hnone.
Defined.

(** The scan on [marked_floppy]: the file behind the two marked entries is
    found in entry 2, and the deleted entry itself is found by its raw name. *)
Lemma FindFile_scans_past_markers :
  entry_name (slice (Z.to_nat (19 * 512)) (Z.to_nat (14 * 512)) marked_floppy) 0
    = repeat x00 11 /\
  value_of (FindFile (c_string "FILE    TXT") (loaded marked_floppy))
    = Some (Ptr 1 (2 * 32)) /\
  value_of (FindFile (xe5 :: ascii "LD     TXT") (loaded marked_floppy))
    = Some (Ptr 1 (1 * 32)).
Proof.
  split_all; vm_compute; reflexivity.
Qed.

(** C5, as amended.  On a loaded root directory whose [dirEntryCount]
    entries are all zero bytes, [FindFile] returns [NULL] for every 11-byte
    name other than eleven zero bytes; for the name of eleven zero bytes it
    returns entry 0 as soon as the directory has an entry; with no entry it
    returns [NULL]. *)
Theorem FindFile_empty_directory (s : state) (b : nat) (dir name : list byte) :
  root_directory_loaded s b dir ->
  length name = 11%nat ->
  let n := dirEntryCount (BootSector_of_bytes (g_BootSector s)) in
  (forall j, 0 <= j < n -> entry_bytes dir j = repeat x00 32) ->
  (name <> repeat x00 11 -> FindFile name s = Ok (NULL, s)) /\
  (name = repeat x00 11 -> 0 < n -> FindFile name s = Ok (Ptr b 0, s)) /\
  (n = 0 -> FindFile name s = Ok (NULL, s)).
Proof.
  intros Hloaded Hname n Hzero.
  assert (Hnames : forall j, 0 <= j < n -> entry_name dir j = repeat x00 11).
  { intros j Hj. rewrite entry_name_bytes, (Hzero j Hj). reflexivity. }
  pose proof (FindFile_spec s b dir name Hloaded ltac:(lia)) as Hspec.
  cbv zeta in Hspec. fold n in Hspec. rewrite firstn_all2 in Hspec by lia.
  destruct Hspec as [[Hrun Hnone]|(k & Hk & Hrun & Hmatch & Hfirst)].
  - split; [intros _; exact Hrun|]. split; [|intros _; exact Hrun].
    intros Heq Hn. exfalso. apply (Hnone 0); [lia|].
    rewrite Hnames by lia. now symmetry.
  - rewrite (Hnames k Hk) in Hmatch. split; [congruence|]. split; [|lia].
    intros _ _. assert (k = 0); [|subst k; exact Hrun].
    destruct (Z.eq_dec k 0) as [|Hk0]; [assumption|].
    exfalso. apply (Hfirst 0); [lia|]. rewrite Hnames by lia. exact Hmatch.
Qed.

(** On the loaded [blank_floppy] the file is not found. *)
Lemma FindFile_empty_directory_witness :
  root_directory_loaded (loaded blank_floppy) 1 blank_root /\
  FindFile (ascii "FILE    TXT") (loaded blank_floppy)
    = Ok (NULL, loaded blank_floppy).
Proof.
  assert (Hloaded : root_directory_loaded (loaded blank_floppy) 1 blank_root).
  { unfold root_directory_loaded. split_all; vm_compute; congruence. }
  split; [exact Hloaded|].
  assert (Hzero : forall j,
             0 <= j < dirEntryCount
                        (BootSector_of_bytes (g_BootSector (loaded blank_floppy))) ->
             entry_bytes blank_root j = repeat x00 32).
  { intros j Hj. apply bytes_eqb_eq. revert j Hj.
    apply (forall_below _ (fun j => bytes_eqb (entry_bytes blank_root j) (repeat x00 32))).
    vm_compute. reflexivity. }
  destruct (FindFile_empty_directory (loaded blank_floppy) 1 blank_root
              (ascii "FILE    TXT") Hloaded eq_refl Hzero) as (Hother & _ & _).
  apply Hother. intros H. vm_compute in H. discriminate H.
Defined.

(** C5, as stated, fails: on the all-zero root directory of [blank_floppy]
    the name of eleven zero bytes matches entry 0. *)
Lemma zero_name_found_in_empty_directory :
  root_directory_loaded (loaded blank_floppy) 1 blank_root /\
  blank_root = repeat x00 (Z.to_nat (224 * 32)) /\
  length (repeat x00 11) = 11%nat /\
  value_of (FindFile (repeat x00 11) (loaded blank_floppy)) = Some (Ptr 1 0).
Proof.
  split; [unfold root_directory_loaded; split_all; vm_compute; congruence|].
  split; [vm_compute; reflexivity|].
  split; [reflexivity|].
  vm_compute; reflexivity.
Qed.

(** C10.  When [bytesPerSector] is positive and [ReadRootDirectory] has
    returned true, [g_RootDirectory] points to a live block, allocated by
    that call, whose bytes are all written and which is long enough for
    every entry of index [0 .. dirEntryCount - 1] to lie inside it, all 32
    bytes.  So [FindFile] is defined for every argument of at least 11
    bytes: no step of the scan reads outside the block.  With [dirEntryCount] = 0 it returns
    [NULL] without a read, for every argument. *)
Theorem FindFile_within_buffer (s s' : state) :
  0 < bytesPerSector (BootSector_of_bytes (g_BootSector s)) ->
  ReadRootDirectory s = Ok (true, s') ->
  let n := dirEntryCount (BootSector_of_bytes (g_BootSector s')) in
  exists (b : nat) (dir : list byte),
    g_RootDirectory s' = Ptr b 0 /\
    nth_error (heap s') b = Some (Some (map Some dir)) /\
    In (Emalloc (Z.of_nat (length dir)) (Ptr b 0)) (trace s') /\
    (forall i, 0 <= i < n ->
       0 <= sizeof_DirectoryEntry * i /\
       sizeof_DirectoryEntry * i + sizeof_DirectoryEntry <= Z.of_nat (length dir)) /\
    (forall name, (11 <= length name)%nat ->
       exists p, FindFile name s' = Ok (p, s')) /\
    (n = 0 -> forall name, FindFile name s' = Ok (NULL, s')).
Proof.
  intros Hbps Hrun n.
  destruct (ReadRootDirectory_loaded s s' Hbps Hrun) as (Hbs & Hlen & Hmalloc & Hloaded).
  rewrite <- Hlen in Hmalloc.
  match type of Hloaded with root_directory_loaded _ ?b ?d => exists b, d end.
  destruct Hloaded as (Hptr & Hblk & Hfit). fold n in Hfit.
  split; [exact Hptr|]. split; [exact Hblk|]. split; [exact Hmalloc|].
  split; [|split].
  - intros i Hi. unfold sizeof_DirectoryEntry in *. lia.
  - intros name Hname.
    destruct (FindFile_spec s' _ _ name (conj Hptr (conj Hblk Hfit)) Hname)
      as [[H _]|(k & _ & H & _)]; eauto.
  - intros Hn name. now apply FindFile_no_entries.
Qed.

(** The root directory of [floppy]. *)
Lemma FindFile_within_buffer_witness :
  0 < bytesPerSector (BootSector_of_bytes (g_BootSector (fat_loaded floppy))) /\
  exists (b : nat) (dir : list byte),
    g_RootDirectory (state_after ReadRootDirectory (fat_loaded floppy)) = Ptr b 0 /\
    nth_error (heap (state_after ReadRootDirectory (fat_loaded floppy))) b
      = Some (Some (map Some dir)) /\
    (forall i, 0 <= i < 224 ->
       0 <= sizeof_DirectoryEntry * i /\
       sizeof_DirectoryEntry * i + sizeof_DirectoryEntry <= Z.of_nat (length dir)).
Proof.
  assert (Hbps : 0 < bytesPerSector (BootSector_of_bytes (g_BootSector (fat_loaded floppy))))
    by (vm_compute; reflexivity).
  split; [exact Hbps|].
  destruct (FindFile_within_buffer (fat_loaded floppy)
              (state_after ReadRootDirectory (fat_loaded floppy)) Hbps)
    as (b & dir & Hptr & Hblk & _ & Hin & _).
  - apply value_of_run. vm_compute. reflexivity.
  - exists b, dir. split; [exact Hptr|]. split; [exact Hblk|].
    assert (Hn : dirEntryCount (BootSector_of_bytes
                    (g_BootSector (state_after ReadRootDirectory (fat_loaded floppy)))) = 224)
      by (vm_compute; reflexivity).
    rewrite Hn in Hin. exact Hin.
Defined.

(** ** The boot sector after it is decoded *)

(** C9.  After the boot sector is decoded no operation writes to it:
    whenever [ReadFAT], [ReadRootDirectory] or [FindFile] runs from a state
    [s] to a state [s'], whatever it returns, the object representation of
    [g_BootSector], hence every member, is in [s'] what it was in [s].
    (The runs that reach no state are the undefined ones: the signed
    overflow of the size in [ReadFAT], the division by zero in
    [ReadRootDirectory], a lookup before the directory is loaded.) *)
Theorem BootSector_never_modified (s s' : state) :
  (forall ok, ReadFAT s = Ok (ok, s') -> g_BootSector s' = g_BootSector s) /\
  (forall ok, ReadRootDirectory s = Ok (ok, s') -> g_BootSector s' = g_BootSector s) /\
  (forall name p, FindFile name s = Ok (p, s') -> g_BootSector s' = g_BootSector s).
Proof.
  split; [|split].
  - intros ok. apply ReadFAT_frame.
  - intros ok. apply ReadRootDirectory_frame.
  - intros name p H. apply FindFile_frame in H. now subst.
Qed.

(** The three operations on [floppy], each from the state it runs in. *)
Lemma BootSector_never_modified_witness :
  g_BootSector (state_after ReadFAT (booted floppy)) = g_BootSector (booted floppy) /\
  g_BootSector (state_after ReadRootDirectory (fat_loaded floppy))
    = g_BootSector (fat_loaded floppy) /\
  g_BootSector (state_after (FindFile (ascii "FILE    TXT")) (loaded floppy))
    = g_BootSector (loaded floppy).
Proof.
  split; [|split].
  - apply (proj1 (BootSector_never_modified (booted floppy)
                    (state_after ReadFAT (booted floppy))) true).
    apply value_of_run. vm_compute. reflexivity.
  - apply (proj1 (proj2 (BootSector_never_modified (fat_loaded floppy)
                    (state_after ReadRootDirectory (fat_loaded floppy)))) true).
    apply value_of_run. vm_compute. reflexivity.
  - apply (proj2 (proj2 (BootSector_never_modified (loaded floppy)
                    (state_after (FindFile (ascii "FILE    TXT")) (loaded floppy))))
             (ascii "FILE    TXT") (Ptr 1 0)).
    apply value_of_run. vm_compute. reflexivity.
Defined.

(** ** [main] *)

Lemma opened_state (img : list byte) :
  opened img
  = mkState (mkFILE img 0) [] (repeat x00 (Z.to_nat sizeof_BootSector))
            NULL NULL [Efopen true].
Proof. reflexivity. Qed.

Lemma release_and_return_runs (s : state) (a b : nat) (ca cb : list cell) (r : Z) :
  g_Fat s = Ptr a 0 -> g_RootDirectory s = Ptr b 0 -> a <> b ->
  nth_error (heap s) a = Some (Some ca) ->
  nth_error (heap s) b = Some (Some cb) ->
  exists s',
    release_and_return r s = Ok (r, s') /\
    trace s' = trace s ++ [Efree (Ptr a 0); Efree (Ptr b 0)].
Proof.
  intros Hfat Hroot Hab Ha Hb.
  unfold release_and_return, bind, get, ret, free. cbv beta iota zeta.
  rewrite Hfat, Ha. proj. rewrite Hroot.
  rewrite nth_error_set_nth_other, Hb by exact Hab.
  eexists. split; [reflexivity|]. proj. now rewrite <- app_assoc.
Qed.

(** [main] on an image that loads: the exit status tells whether the
    lookup found an entry. *)
Lemma main_after_loading (img name : list byte) (s1 s2 s3 : state) (p : pointer)
    (a b : nat) (ca cb : list cell) :
  ReadBootSector (opened img) = Ok (true, s1) ->
  ReadFAT s1 = Ok (true, s2) ->
  ReadRootDirectory s2 = Ok (true, s3) ->
  FindFile name s3 = Ok (p, s3) ->
  g_Fat s3 = Ptr a 0 -> g_RootDirectory s3 = Ptr b 0 -> a <> b ->
  nth_error (heap s3) a = Some (Some ca) ->
  nth_error (heap s3) b = Some (Some cb) ->
  exists s',
    main 3 (Some img) name initial_state
      = Ok (match p with NULL => -5 | _ => 0 end, s') /\
    trace s' = trace s3 ++ [Efree (Ptr a 0); Efree (Ptr b 0)].
Proof.
  intros Hboot Hfat Hroot Hfind Hpa Hpb Hab Ha Hb.
  unfold main. change (3 <? 3) with false. cbv iota.
  unfold bind at 1. unfold fopen at 1.
  change (log (Efopen true) (set_disk {| contents := img; position := 0 |} initial_state))
    with (opened img).
  cbn [negb]. cbv beta iota.
  unfold bind at 1. rewrite Hboot. cbn [negb]. cbv beta iota.
  unfold bind at 1. rewrite Hfat. cbn [negb]. cbv beta iota.
  unfold bind at 1. rewrite Hroot. cbn [negb]. cbv beta iota.
  unfold bind at 1. rewrite Hfind. cbv beta iota.
  destruct (release_and_return_runs s3 a b ca cb (match p with NULL => -5 | _ => 0 end)
              Hpa Hpb Hab Ha Hb) as (s' & Hrun & Htr).
  exists s'. split; [|exact Htr].
  unfold release_and_return in Hrun. destruct p; exact Hrun.
Qed.

(** A failure of [ReadFAT] ends [main]: the buffer is released and the
    exit status is -3, with no further call on the stream or the heap. *)
Lemma main_stops_after_ReadFAT (img name : list byte) (s1 s2 : state)
    (a : nat) (ca : list cell) :
  ReadBootSector (opened img) = Ok (true, s1) ->
  ReadFAT s1 = Ok (false, s2) ->
  g_Fat s2 = Ptr a 0 ->
  nth_error (heap s2) a = Some (Some ca) ->
  exists s',
    main 3 (Some img) name initial_state = Ok (-3, s') /\
    trace s' = trace s2 ++ [Efree (Ptr a 0)] /\
    g_RootDirectory s' = g_RootDirectory s2 /\
    disk s' = disk s2.
Proof.
  intros Hboot Hfat Hpa Ha.
  unfold main. change (3 <? 3) with false. cbv iota.
  unfold bind at 1. unfold fopen at 1.
  change (log (Efopen true) (set_disk {| contents := img; position := 0 |} initial_state))
    with (opened img).
  cbn [negb]. cbv beta iota.
  unfold bind at 1. rewrite Hboot. cbn [negb]. cbv beta iota.
  unfold bind at 1. rewrite Hfat. cbn [negb]. cbv beta iota.
  unfold bind, get, ret, free. rewrite Hpa, Ha.
  eexists. split; [reflexivity|]. proj. repeat split; reflexivity.
Qed.

(** When the number of reserved sectors fits eight bits, a table region
    cut short makes [ReadFAT] fail and [main] stop there: the trace ends
    with the release of the buffer, the root directory is never loaded. *)
Lemma main_truncated_table (img name : list byte) :
  let bs := BootSector_of_bytes (firstn (Z.to_nat sizeof_BootSector) img) in
  let bytes := sectorsPerFat bs * bytesPerSector bs in
  let off := reservedSectors bs * bytesPerSector bs in
  sizeof_BootSector <= Z.of_nat (length img) ->
  0 < bytesPerSector bs ->
  reservedSectors bs < 2 ^ 8 ->
  bytes <= INT_MAX ->
  Z.of_nat (length (skipn (Z.to_nat off) img)) < bytes ->
  exists (s' : state) (items : Z),
    main 3 (Some img) name initial_state = Ok (-3, s') /\
    trace s' =
      [Efopen true; Efread sizeof_BootSector 1 0 1;
       Emalloc bytes (Ptr 0 0); Efseek off 0;
       Efread (bytesPerSector bs) (sectorsPerFat bs) off items;
       Efree (Ptr 0 0)] /\
    g_RootDirectory s' = NULL.
Proof.
  intros bs bytes off Hlen Hbps Hrsv Hmax Hcut.
  pose proof (BootSector_fields_range (firstn (Z.to_nat sizeof_BootSector) img)) as R.
  cbv zeta in R. fold bs in R.
  (* the boot sector *)
  destruct (ReadBootSector_spec (opened img) eq_refl)
    as (s1 & Hrun1 & Hbs1 & _ & Hroot1 & Hheap1 & Hcont1 & _ & Htr1).
  rewrite opened_state in Hbs1, Hroot1, Hheap1, Hcont1, Htr1, Hrun1.
  unfold remaining in *. cbn [disk contents position g_BootSector g_Fat
    g_RootDirectory heap trace skipn Z.to_nat app] in Hbs1, Hroot1, Hheap1, Hcont1, Htr1, Hrun1.
  rewrite <- opened_state in Hrun1.
  set (hdr := firstn (Z.to_nat sizeof_BootSector) img) in *.
  assert (Hhdr : length hdr = Z.to_nat sizeof_BootSector).
  { unfold hdr. rewrite length_firstn. unfold sizeof_BootSector in *. lia. }
  rewrite overwrite_all in Hbs1 by (rewrite Hhdr, repeat_length; reflexivity).
  rewrite Hhdr in Hrun1, Htr1.
  change (Z.of_nat (Z.to_nat sizeof_BootSector) / sizeof_BootSector) with 1 in Hrun1, Htr1.
  change (1 >? 0) with true in Hrun1.
  (* the allocation table *)
  destruct (ReadFAT_spec s1)
    as (s2 & Hrun2 & _ & Hfat2 & Hroot2 & _ & _ & Htr2 & _ & _ & Hblk2).
  { rewrite Hbs1. exact Hmax. }
  rewrite Hbs1 in Hrun2, Htr2, Hblk2. rewrite Hheap1 in Hfat2, Htr2, Hblk2.
  rewrite Hcont1 in Hrun2, Htr2, Hblk2.
  fold bs bytes in Hrun2, Htr2, Hblk2.
  rewrite (uint8_small (reservedSectors bs)) in Hrun2, Htr2, Hblk2 by lia.
  fold off in Hrun2, Htr2, Hblk2. cbn [length] in Hfat2, Htr2, Hblk2.
  set (data := firstn (Z.to_nat bytes) (skipn (Z.to_nat off) img)) in *.
  assert (Hshort : (Z.of_nat (length data) / bytesPerSector bs =? sectorsPerFat bs) = false).
  { destruct (Z.of_nat (length data) / bytesPerSector bs =? sectorsPerFat bs) eqn:E;
      [|reflexivity].
    exfalso. apply items_complete in E; [| exact Hbps |].
    - unfold data in E. rewrite length_firstn in E. unfold bytes in *. lia.
    - unfold data. rewrite length_firstn. unfold bytes in *. lia. }
  rewrite Hshort in Hrun2.
  destruct (main_stops_after_ReadFAT img name s1 s2 0%nat _ Hrun1 Hrun2 Hfat2 Hblk2)
    as (s' & Hmain & Htr & Hroot & _).
  exists s'. eexists. split; [exact Hmain|]. split.
  - rewrite Htr, Htr2, Htr1. reflexivity.
  - congruence.
Qed.

(** C1.  Take any image of 1474560 bytes (1.44MB) whose boot sector decodes
    to [bytesPerSector] = 512, [reservedSectors] = 1, [fatCount] = 2,
    [sectorsPerFat] = 9 and [dirEntryCount] = 224, and whose root directory
    (14 sectors from sector 19) holds at index [k] an entry named
    ["FILE    TXT"] of size 4096, the first entry of that name, and no entry
    named ["NOFILE  TXT"].  Then [ReadBootSector], [ReadFAT] and
    [ReadRootDirectory] each return true; [FindFile], given the string
    ["FILE    TXT"], returns the address of entry [k], whose [size] member
    is 4096, and [main] returns 0; given the string ["NOFILE  TXT"] on the
    same loaded directory [FindFile] returns [NULL], and [main] returns -5. *)
Theorem floppy_lookup (img : list byte) (k : Z) :
  let bs := BootSector_of_bytes (firstn (Z.to_nat sizeof_BootSector) img) in
  let dir := slice (Z.to_nat (19 * 512)) (Z.to_nat (14 * 512)) img in
  Z.of_nat (length img) = 1474560 ->
  bytesPerSector bs = 512 ->
  reservedSectors bs = 1 ->
  fatCount bs = 2 ->
  sectorsPerFat bs = 9 ->
  dirEntryCount bs = 224 ->
  0 <= k < 224 ->
  entry_name dir k = ascii "FILE    TXT" ->
  (forall j, 0 <= j < k -> entry_name dir j <> ascii "FILE    TXT") ->
  size (DirectoryEntry_of_bytes (entry_bytes dir k)) = 4096 ->
  (forall j, 0 <= j < 224 -> entry_name dir j <> ascii "NOFILE  TXT") ->
  exists (s1 s2 s3 : state) (e : DirectoryEntry),
    ReadBootSector (opened img) = Ok (true, s1) /\
    ReadFAT s1 = Ok (true, s2) /\
    ReadRootDirectory s2 = Ok (true, s3) /\
    FindFile (c_string "FILE    TXT") s3 = Ok (Ptr 1 (sizeof_DirectoryEntry * k), s3) /\
    entry_at (Ptr 1 (sizeof_DirectoryEntry * k)) s3 = Ok (e, s3) /\
    size e = 4096 /\
    FindFile (c_string "NOFILE  TXT") s3 = Ok (NULL, s3) /\
    value_of (main 3 (Some img) (c_string "FILE    TXT") initial_state) = Some 0 /\
    value_of (main 3 (Some img) (c_string "NOFILE  TXT") initial_state) = Some (-5).
Proof.
  intros bs dir Hlen Hbps Hrsv Hfats Hspf Hdirs Hk Hname Hfirst Hsize Hnone.
  (* the boot sector *)
  destruct (ReadBootSector_spec (opened img) eq_refl)
    as (s1 & Hrun1 & Hbs1 & Hfat1 & Hroot1 & Hheap1 & Hcont1 & Hpos1 & _).
  rewrite opened_state in Hbs1, Hfat1, Hroot1, Hheap1, Hcont1, Hpos1, Hrun1.
  unfold remaining in *. cbn [disk contents position g_BootSector g_Fat
    g_RootDirectory heap skipn Z.to_nat] in Hbs1, Hfat1, Hroot1, Hheap1, Hcont1, Hpos1, Hrun1.
  rewrite <- opened_state in Hrun1.
  set (hdr := firstn (Z.to_nat sizeof_BootSector) img) in *.
  assert (Hhdr : length hdr = Z.to_nat sizeof_BootSector).
  { unfold hdr. rewrite length_firstn. unfold sizeof_BootSector. lia. }
  rewrite overwrite_all in Hbs1 by (rewrite Hhdr, repeat_length; reflexivity).
  rewrite Hhdr in Hrun1. change (Z.of_nat (Z.to_nat sizeof_BootSector) / sizeof_BootSector >? 0)
    with true in Hrun1.
  (* the allocation table *)
  destruct (ReadFAT_spec s1)
    as (s2 & Hrun2 & Hbs2 & Hfat2 & Hroot2 & Hcont2 & _ & _ & Hlen2 & _ & Hblk2).
  { rewrite Hbs1. fold bs. rewrite Hspf, Hbps. unfold INT_MAX. lia. }
  rewrite ?Hbs1, ?Hheap1, ?Hcont1 in Hrun2.
  rewrite ?Hbs1, ?Hheap1, ?Hcont1 in Hfat2.
  rewrite ?Hbs1, ?Hheap1, ?Hcont1 in Hblk2.
  rewrite ?Hbs1, ?Hheap1, ?Hcont1 in Hlen2. fold bs in Hrun2, Hblk2.
  rewrite ?Hspf, ?Hbps, ?Hrsv in Hrun2.
  rewrite ?Hspf, ?Hbps, ?Hrsv in Hblk2.
  change (uint8_t 1 * 512) with 512 in Hrun2, Hblk2.
  change (9 * 512) with 4608 in Hrun2, Hblk2.
  rewrite length_slice_full in Hrun2 by lia.
  change (Z.of_nat (Z.to_nat 4608) / 512 =? 9) with true in Hrun2.
  cbn [length] in Hfat2, Hblk2, Hlen2.
  (* the root directory *)
  destruct (ReadRootDirectory_spec s2)
    as (s3 & Hrun3 & Hbs3 & Hfat3 & Hroot3 & Hcont3 & _ & _ & Hlen3 & Hold3 & Hblk3).
  { rewrite Hbs2, Hbs1. fold bs. lia. }
  rewrite ?Hbs2, ?Hbs1, ?Hcont2, ?Hcont1, ?Hlen2 in Hrun3.
  rewrite ?Hbs2, ?Hbs1, ?Hcont2, ?Hcont1, ?Hlen2 in Hroot3.
  rewrite ?Hbs2, ?Hbs1, ?Hcont2, ?Hcont1, ?Hlen2 in Hblk3.
  rewrite ?Hbs2, ?Hbs1, ?Hcont2, ?Hcont1, ?Hlen2 in Hold3.
  fold bs in Hrun3, Hblk3.
  rewrite ?Hspf, ?Hbps, ?Hrsv, ?Hfats, ?Hdirs in Hrun3.
  rewrite ?Hspf, ?Hbps, ?Hrsv, ?Hfats, ?Hdirs in Hblk3.
  change (sizeof_DirectoryEntry * 224) with 7168 in Hrun3, Hblk3.
  change (7168 mod 512 >? 0) with false in Hrun3, Hblk3. cbv iota in Hrun3, Hblk3.
  change (7168 / 512) with 14 in Hrun3, Hblk3.
  change (uint8_t (1 + 9 * 2) * 512) with (19 * 512) in Hrun3, Hblk3.
  fold (slice (Z.to_nat (19 * 512)) (Z.to_nat (14 * 512)) img) in Hrun3, Hblk3.
  fold dir in Hrun3, Hblk3.
  assert (Hdir : length dir = Z.to_nat (14 * 512)).
  { unfold dir, slice. apply length_slice_full. lia. }
  rewrite Hdir in Hrun3.
  change (Z.of_nat (Z.to_nat (14 * 512)) / 512 =? 14) with true in Hrun3.
  rewrite overwrite_all in Hblk3 by (rewrite length_map, repeat_length; exact Hdir).
  (* the lookups *)
  assert (Hloaded : root_directory_loaded s3 1 dir).
  { unfold root_directory_loaded. rewrite Hbs3, Hbs2, Hbs1. fold bs. rewrite Hdirs.
    split; [exact Hroot3|]. split; [exact Hblk3|].
    rewrite Hdir. unfold sizeof_DirectoryEntry. lia. }
  assert (Hn : dirEntryCount (BootSector_of_bytes (g_BootSector s3)) = 224).
  { rewrite Hbs3, Hbs2, Hbs1. exact Hdirs. }
  assert (Hfile : FindFile (c_string "FILE    TXT") s3
                  = Ok (Ptr 1 (sizeof_DirectoryEntry * k), s3)).
  { pose proof (FindFile_spec s3 1 dir (c_string "FILE    TXT") Hloaded
                  ltac:(cbn; lia)) as Hspec.
    cbv zeta in Hspec. rewrite Hn in Hspec.
    change (firstn 11 (c_string "FILE    TXT")) with (ascii "FILE    TXT") in Hspec.
    destruct Hspec as [[_ Habs]|(k' & Hk' & Hrun & Hmatch & Hfirst')].
    - exfalso. exact (Habs k Hk Hname).
    - assert (k' = k); [|subst k'; exact Hrun].
      destruct (Z.lt_total k' k) as [Hlt|[Heq|Hgt]]; [|exact Heq|].
      + exfalso. apply (Hfirst k'); [lia | exact Hmatch].
      + exfalso. apply (Hfirst' k); [lia | exact Hname]. }
  assert (Hnofile : FindFile (c_string "NOFILE  TXT") s3 = Ok (NULL, s3)).
  { pose proof (FindFile_spec s3 1 dir (c_string "NOFILE  TXT") Hloaded
                  ltac:(cbn; lia)) as Hspec.
    cbv zeta in Hspec. rewrite Hn in Hspec.
    change (firstn 11 (c_string "NOFILE  TXT")) with (ascii "NOFILE  TXT") in Hspec.
    destruct Hspec as [[Hrun _]|(k' & Hk' & _ & Hmatch & _)].
    - exact Hrun.
    - exfalso. exact (Hnone k' Hk' Hmatch). }
  assert (Hentry : entry_at (Ptr 1 (sizeof_DirectoryEntry * k)) s3
                   = Ok (DirectoryEntry_of_bytes (entry_bytes dir k), s3)).
  { unfold entry_at, bind, ret.
    rewrite (load_heap s3 1 dir); [reflexivity | exact Hblk3 | |];
      rewrite ?Hdir; unfold sizeof_DirectoryEntry; lia. }
  (* the whole program *)
  assert (Hblk0 : nth_error (heap s3) 0 = nth_error (heap s2) 0)
    by (apply Hold3; cbn; lia).
  rewrite Hblk2 in Hblk0.
  rewrite Hfat2 in Hfat3.
  destruct (main_after_loading img (c_string "FILE    TXT") s1 s2 s3 _ 0%nat 1%nat _ _
              Hrun1 Hrun2 Hrun3 Hfile Hfat3 Hroot3 ltac:(discriminate) Hblk0 Hblk3)
    as (sa & Hmain1 & _).
  destruct (main_after_loading img (c_string "NOFILE  TXT") s1 s2 s3 _ 0%nat 1%nat _ _
              Hrun1 Hrun2 Hrun3 Hnofile Hfat3 Hroot3 ltac:(discriminate) Hblk0 Hblk3)
    as (sb & Hmain2 & _).
  exists s1, s2, s3, (DirectoryEntry_of_bytes (entry_bytes dir k)).
  rewrite Hmain1, Hmain2. repeat split; assumption.
Qed.

(** The image [floppy] is such an image, with the file in entry 0. *)
Lemma floppy_lookup_witness :
  Z.of_nat (length floppy) = 1474560 /\
  entry_name floppy_root 0 = ascii "FILE    TXT" /\
  size (DirectoryEntry_of_bytes (entry_bytes floppy_root 0)) = 4096 /\
  exists (s1 s2 s3 : state) (e : DirectoryEntry),
    ReadBootSector (opened floppy) = Ok (true, s1) /\
    ReadFAT s1 = Ok (true, s2) /\
    ReadRootDirectory s2 = Ok (true, s3) /\
    FindFile (c_string "FILE    TXT") s3 = Ok (Ptr 1 (sizeof_DirectoryEntry * 0), s3) /\
    entry_at (Ptr 1 (sizeof_DirectoryEntry * 0)) s3 = Ok (e, s3) /\
    size e = 4096 /\
    FindFile (c_string "NOFILE  TXT") s3 = Ok (NULL, s3) /\
    value_of (main 3 (Some floppy) (c_string "FILE    TXT") initial_state) = Some 0 /\
    value_of (main 3 (Some floppy) (c_string "NOFILE  TXT") initial_state) = Some (-5).
Proof.
  assert (Hlen : Z.of_nat (length floppy) = 1474560) by (vm_compute; reflexivity).
  assert (Hname : entry_name floppy_root 0 = ascii "FILE    TXT")
    by (vm_compute; reflexivity).
  assert (Hsize : size (DirectoryEntry_of_bytes (entry_bytes floppy_root 0)) = 4096)
    by (vm_compute; reflexivity).
  split; [exact Hlen|]. split; [exact Hname|]. split; [exact Hsize|].
  apply (floppy_lookup floppy 0).
  - exact Hlen.
  - vm_compute; reflexivity.
  - vm_compute; reflexivity.
  - vm_compute; reflexivity.
  - vm_compute; reflexivity.
  - vm_compute; reflexivity.
  - lia.
  - exact Hname.
  - intros j Hj. lia.
  - exact Hsize.
  - intros j Hj Heq.
    assert (Hcheck : negb (bytes_eqb (entry_name floppy_root j) (ascii "NOFILE  TXT")) = true).
    { revert j Hj Heq. intros j Hj _. revert j Hj.
      apply (forall_below 224
               (fun j => negb (bytes_eqb (entry_name floppy_root j) (ascii "NOFILE  TXT")))).
      vm_compute. reflexivity. }
    apply bytes_eqb_eq in Heq. fold floppy_root in Heq.
    rewrite Heq in Hcheck. discriminate Hcheck.
Defined.

(** C7.  The claim fails on the code.  The image [cut_fat] announces 256
    reserved sectors and a table of 9 sectors, and ends 512 bytes after its
    reserved region: fewer than 9 * 512 bytes are available there.
    [ReadFAT] nevertheless returns true, having read sectors 0 to 8, and
    [main] goes on to load a root directory and to look the name up: it
    returns -5, not -3. *)
Theorem main_cut_fat :
  let bs := BootSector_of_bytes (g_BootSector (booted cut_fat)) in
  bytesPerSector bs = 512 /\
  reservedSectors bs = 256 /\
  sectorsPerFat bs = 9 /\
  Z.of_nat (length (skipn (Z.to_nat (256 * 512)) cut_fat)) = 512 /\
  value_of (ReadFAT (booted cut_fat)) = Some true /\
  value_of (main 3 (Some cut_fat) (c_string "FILE    TXT") initial_state) = Some (-5) /\
  trace (state_after (main 3 (Some cut_fat) (c_string "FILE    TXT")) initial_state)
    = [Efopen true; Efread 62 1 0 1;
       Emalloc 4608 (Ptr 0 0); Efseek 0 0; Efread 512 9 0 9;
       Emalloc 7168 (Ptr 1 0); Efseek 9216 0; Efread 512 14 9216 14;
       Efree (Ptr 0 0); Efree (Ptr 1 0)].
Proof.
  cbv zeta. split_all; vm_compute; reflexivity.
Qed.

(** * Further properties *)

(** ** The object representation of the structures *)

(** Closed comparisons and equations, by evaluation. *)
Ltac evaluate :=
  match goal with
  | |- _ /\ _ => split; evaluate
  | |- (_ <= _)%Z => apply Z.leb_le; vm_compute; reflexivity
  | |- (_ < _)%Z => apply Z.ltb_lt; vm_compute; reflexivity
  | |- (_ <= _)%nat => apply Nat.leb_le; vm_compute; reflexivity
  | |- (_ < _)%nat => apply Nat.ltb_lt; vm_compute; reflexivity
  | |- _ = _ => vm_compute; reflexivity
  end.

Lemma byte_of_Z_val (b : byte) (x : Z) : byte_of_Z (byte_val b + 256 * x) = b.
Proof.
  unfold byte_of_Z.
  replace ((byte_val b + 256 * x) mod 256) with (byte_val b).
  - unfold byte_val. rewrite N2Z.id, Byte.of_to_N. reflexivity.
  - pose proof (byte_val_range b).
    apply (Z.mod_unique _ _ x); lia.
Qed.

Lemma le_bytes_le_uint (l : list byte) : le_bytes (length l) (le_uint l) = l.
Proof.
  induction l as [|b l IH]; [reflexivity|].
  cbn [length le_bytes le_uint]. rewrite byte_of_Z_val. f_equal.
  replace ((byte_val b + 256 * le_uint l) / 256) with (le_uint l); [exact IH|].
  pose proof (byte_val_range b).
  apply (Z.div_unique _ _ _ (byte_val b)); lia.
Qed.

Lemma le_bytes_1 (a : byte) : le_bytes 1 (le_uint [a]) = [a].
Proof. exact (le_bytes_le_uint [a]). Qed.

Lemma le_bytes_2 (a b : byte) : le_bytes 2 (le_uint [a; b]) = [a; b].
Proof. exact (le_bytes_le_uint [a; b]). Qed.

Lemma le_bytes_4 (a b c d : byte) :
  le_bytes 4 (le_uint [a; b; c; d]) = [a; b; c; d].
Proof. exact (le_bytes_le_uint [a; b; c; d]). Qed.

(** X1.  The members of [BootSector] cover its 62 bytes.  Writing the
    members of a decoded boot sector back in declaration order, integers
    least significant byte first, gives the bytes that were decoded: the
    packed structure has no padding, and decoding loses no byte of the
    header. *)
Theorem BootSector_bytes_round_trip (m : list byte) :
  length m = Z.to_nat sizeof_BootSector ->
  bytes_of_BootSector (BootSector_of_bytes m) = m.
Proof.
  intros H. change (Z.to_nat sizeof_BootSector) with 62%nat in H.
  do 62 (destruct m as [|? m]; [discriminate H|]).
  destruct m; [|discriminate H]. clear H.
  unfold bytes_of_BootSector, BootSector_of_bytes, take_array, take_uint.
  cbn [firstn skipn bootJumpInstruction oemIdentifier bytesPerSector sectorsPerCluster
       reservedSectors fatCount dirEntryCount totalSectors mediaDescriptorType
       sectorsPerFat sectorsPerTrack heads hiddenSectors largeSectorCount
       driveNumber bs_reserved signature volumeID volumeLabel systemID].
  rewrite !le_bytes_1, !le_bytes_2, !le_bytes_4. reflexivity.
Qed.

(** The header of [small_volume]. *)
Lemma BootSector_bytes_round_trip_witness :
  bytes_of_BootSector (BootSector_of_bytes (header small_volume))
  = header small_volume.
Proof. apply BootSector_bytes_round_trip. evaluate. Defined.

(** X2.  The members of [DirectoryEntry] cover its 32 bytes.  Writing
    the members of a decoded entry back in declaration order, integers
    least significant byte first, gives the bytes that were decoded. *)
Theorem DirectoryEntry_bytes_round_trip (m : list byte) :
  length m = Z.to_nat sizeof_DirectoryEntry ->
  bytes_of_DirectoryEntry (DirectoryEntry_of_bytes m) = m.
Proof.
  intros H. change (Z.to_nat sizeof_DirectoryEntry) with 32%nat in H.
  do 32 (destruct m as [|? m]; [discriminate H|]).
  destruct m; [|discriminate H]. clear H.
  unfold bytes_of_DirectoryEntry, DirectoryEntry_of_bytes, take_array, take_uint.
  cbn [firstn skipn name attributes de_reserved createdTimeTenths creationTime
       creationDate accessedDate firstClusterHigh modifiedTime modifiedDate
       firstClusterLow size].
  rewrite !le_bytes_1, !le_bytes_2, !le_bytes_4. reflexivity.
Qed.

(** An entry of [small_volume]. *)
Lemma DirectoryEntry_bytes_round_trip_witness :
  bytes_of_DirectoryEntry (DirectoryEntry_of_bytes (dir_entry "FILE    TXT" 3 40))
  = dir_entry "FILE    TXT" 3 40.
Proof. apply DirectoryEntry_bytes_round_trip. evaluate. Defined.

(** ** Undefined behaviour of the loading stages *)

Lemma ReadFAT_overflows (s : state) :
  let bs := BootSector_of_bytes (g_BootSector s) in
  INT_MAX < sectorsPerFat bs * bytesPerSector bs -> ReadFAT s = Undefined.
Proof.
  intros bs Hgt.
  unfold ReadFAT, BootSector_now, int_expr, bind, get, ret, undefined.
  cbv beta iota zeta. fold bs.
  replace (in_int (sectorsPerFat bs * bytesPerSector bs)) with false; [reflexivity|].
  symmetry. unfold in_int. apply andb_false_iff. right. apply Z.leb_gt. exact Hgt.
Qed.

Lemma ReadRootDirectory_divides_by_zero (s : state) :
  bytesPerSector (BootSector_of_bytes (g_BootSector s)) = 0 ->
  ReadRootDirectory s = Undefined.
Proof.
  set (bs := BootSector_of_bytes (g_BootSector s)). intros Hz.
  unfold ReadRootDirectory, BootSector_now, int_expr, bind, get, ret, undefined.
  cbv beta iota zeta. fold bs.
  destruct (in_int (sectorsPerFat bs * fatCount bs)); [|reflexivity].
  cbv beta iota zeta.
  destruct (in_int (reservedSectors bs + sectorsPerFat bs * fatCount bs)); [|reflexivity].
  cbv beta iota zeta. fold bs. rewrite Hz. reflexivity.
Qed.

(** X3.  The size that [ReadFAT] hands to [malloc] is an [int] product
    of two 16-bit members, computed before anything is allocated or read.
    Whenever the product exceeds [INT_MAX] the call has undefined
    behaviour.  That takes a sector size above 32768: with
    [bytesPerSector <= 32768] the product is an [int] whatever
    [sectorsPerFat] is. *)
Theorem ReadFAT_undefined (s : state) :
  let bs := BootSector_of_bytes (g_BootSector s) in
  (INT_MAX < sectorsPerFat bs * bytesPerSector bs -> ReadFAT s = Undefined) /\
  (bytesPerSector bs <= 32768 ->
     0 <= sectorsPerFat bs * bytesPerSector bs <= INT_MAX).
Proof.
  intros bs. split.
  - apply ReadFAT_overflows.
  - intros Hbps.
    pose proof (BootSector_fields_range (g_BootSector s)) as R. cbv zeta in R.
    fold bs in R. unfold INT_MAX. nia.
Qed.

(** A header that announces 65535 sectors of 65535 bytes for its table. *)
Lemma ReadFAT_undefined_witness :
  INT_MAX < 65535 * 65535 /\
  ReadFAT (after_boot small_huge_table) = Undefined.
Proof.
  split; [reflexivity|].
  apply (proj1 (ReadFAT_undefined (after_boot small_huge_table))).
  evaluate.
Defined.

(** X4.  [ReadRootDirectory] divides the size of the directory by
    [bytesPerSector] before it allocates anything: whenever
    [bytesPerSector] is zero the call has undefined behaviour.  The
    arithmetic before the division cannot go wrong: for every header the
    [int] sum [reservedSectors + sectorsPerFat * fatCount] is an [int], and
    [sizeof (DirectoryEntry) * dirEntryCount] is below 2^32. *)
Theorem ReadRootDirectory_undefined (s : state) :
  let bs := BootSector_of_bytes (g_BootSector s) in
  (bytesPerSector bs = 0 -> ReadRootDirectory s = Undefined) /\
  0 <= sectorsPerFat bs * fatCount bs <= INT_MAX /\
  0 <= reservedSectors bs + sectorsPerFat bs * fatCount bs <= INT_MAX /\
  0 <= sizeof_DirectoryEntry * dirEntryCount bs < 2 ^ 32.
Proof.
  intros bs.
  pose proof (BootSector_fields_range (g_BootSector s)) as R. cbv zeta in R.
  fold bs in R.
  split; [apply ReadRootDirectory_divides_by_zero|].
  unfold INT_MAX, sizeof_DirectoryEntry. split_all; nia.
Qed.

(** A header that announces sectors of zero bytes. *)
Lemma ReadRootDirectory_undefined_witness :
  ReadRootDirectory (after_boot small_zero_sector_size) = Undefined.
Proof.
  apply (proj1 (ReadRootDirectory_undefined (after_boot small_zero_sector_size))).
  evaluate.
Defined.

(** ** [ReadDiskSectors] and its buffer *)

(** X5.  A request for no sector succeeds.  When [count] is zero as a
    [uint32_t], [ReadDiskSectors] seeks to sector [lba mod 256], calls
    [fread] for no item and returns true, whatever [bufferOut] is, a null
    pointer included.  No memory is touched and the stream stays where the
    seek left it. *)
Lemma ReadDiskSectors_none (s : state) (lba count : Z) (p : pointer) :
  let bs := BootSector_of_bytes (g_BootSector s) in
  let off := uint8_t lba * bytesPerSector bs in
  uint32_t count = 0 ->
  exists s',
    ReadDiskSectors lba count p s = Ok (true, s') /\
    heap s' = heap s /\
    g_BootSector s' = g_BootSector s /\
    g_Fat s' = g_Fat s /\
    g_RootDirectory s' = g_RootDirectory s /\
    disk s' = mkFILE (contents (disk s)) off /\
    trace s' = trace s ++ [Efseek off 0; Efread (bytesPerSector bs) 0 off 0].
Proof.
  intros bs off Hcount.
  pose proof (BootSector_fields_range (g_BootSector s)) as R. cbv zeta in R. fold bs in R.
  assert (Hlba : 0 <= uint8_t lba < 256) by (unfold uint8_t; apply Z.mod_pos_bound; lia).
  assert (Hoff : 0 <= off) by (unfold off; nia).
  assert (Hint : in_int off = true).
  { unfold in_int, INT_MIN, INT_MAX. apply andb_true_iff.
    split; apply Z.leb_le; unfold off; nia. }
  unfold ReadDiskSectors, ReadDiskSectors_over, BootSector_now, int_expr, bind, get, ret.
  cbv beta iota zeta. fold bs. fold off.
  rewrite Hint. unfold fseek.
  destruct (Z.ltb_spec off 0) as [?|_]; [lia|].
  cbv beta iota zeta. rewrite Z.eqb_refl. cbv beta iota zeta.
  proj. fold bs. unfold fread. rewrite Hcount.
  rewrite orb_true_r. proj.
  eexists. split; [reflexivity|]. proj.
  split_all; try reflexivity.
  now rewrite <- app_assoc.
Qed.

(** A count of 2^32 sectors and a null buffer. *)
Lemma ReadDiskSectors_none_witness :
  uint32_t (2 ^ 32) = 0 /\
  exists s',
    ReadDiskSectors 3 (2 ^ 32) NULL (after_boot small_volume) = Ok (true, s') /\
    heap s' = heap (after_boot small_volume).
Proof.
  assert (H : uint32_t (2 ^ 32) = 0) by evaluate.
  split; [exact H|].
  destruct (ReadDiskSectors_none (after_boot small_volume) 3 (2 ^ 32) NULL H)
    as (s' & Hrun & Hheap & _).
  exists s'. split; [exact Hrun | exact Hheap].
Defined.

Lemma skipn_overwrite {A : Type} (data m : list A) (n : nat) :
  (length data <= n)%nat -> (length data <= length m)%nat ->
  skipn n (overwrite 0 data m) = skipn n m.
Proof.
  intros Hn Hm. unfold overwrite. cbn [firstn app Nat.add].
  rewrite skipn_app.
  rewrite (skipn_all2 data) by lia. cbn [app].
  rewrite skipn_skipn. f_equal. lia.
Qed.

Lemma length_overwrite {A : Type} (data m : list A) :
  (length data <= length m)%nat -> length (overwrite 0 data m) = length m.
Proof.
  intros H. unfold overwrite. cbn [firstn app Nat.add].
  rewrite length_app, length_skipn. lia.
Qed.

(** X6.  [ReadDiskSectors] keeps to its buffer.  When [bufferOut] is the
    start of a live block of at least [count * bytesPerSector] bytes, a
    call that returns, with whatever result, has changed no global, no byte
    of the image and no other block; the block has kept its length, and its
    bytes beyond the first [count * bytesPerSector] are what they were. *)
Theorem ReadDiskSectors_keeps_to_buffer
    (s s' : state) (lba count : Z) (b : nat) (cells : list cell) (ok : bool) :
  let bs := BootSector_of_bytes (g_BootSector s) in
  let want := bytesPerSector bs * uint32_t count in
  nth_error (heap s) b = Some (Some cells) ->
  want <= Z.of_nat (length cells) ->
  ReadDiskSectors lba count (Ptr b 0) s = Ok (ok, s') ->
  g_BootSector s' = g_BootSector s /\
  g_Fat s' = g_Fat s /\
  g_RootDirectory s' = g_RootDirectory s /\
  contents (disk s') = contents (disk s) /\
  length (heap s') = length (heap s) /\
  (forall k, k <> b -> nth_error (heap s') k = nth_error (heap s) k) /\
  exists cells',
    nth_error (heap s') b = Some (Some cells') /\
    length cells' = length cells /\
    skipn (Z.to_nat want) cells' = skipn (Z.to_nat want) cells.
Proof.
  intros bs want Hblk Hfit Hrun.
  destruct (ReadDiskSectors_spec s lba count b cells Hblk Hfit)
    as (s1 & Hrun1 & Hbs & Hfat & Hroot & Hcont & _ & _ & Hlen & Hother & Hnew).
  rewrite Hrun in Hrun1. injection Hrun1 as _ <-.
  split_all; try assumption.
  fold bs want in Hnew.
  set (data := firstn (Z.to_nat want) _) in Hnew.
  assert (Hdata : (length data <= Z.to_nat want)%nat)
    by (unfold data; apply firstn_le_length).
  eexists. split; [exact Hnew|]. split.
  - apply length_overwrite. rewrite length_map. lia.
  - apply skipn_overwrite; rewrite length_map; lia.
Qed.

(** One sector read into a buffer of two. *)
Lemma ReadDiskSectors_keeps_to_buffer_witness :
  ReadDiskSectors 3 1 (Ptr 0 0) small_scratch
    = Ok (true, state_after (ReadDiskSectors 3 1 (Ptr 0 0)) small_scratch) /\
  exists cells',
    nth_error (heap (state_after (ReadDiskSectors 3 1 (Ptr 0 0)) small_scratch)) 0
      = Some (Some cells') /\
    length cells' = length (repeat (@None byte) 1024) /\
    skipn 512 cells' = skipn 512 (repeat None 1024).
Proof.
  assert (Hrun : ReadDiskSectors 3 1 (Ptr 0 0) small_scratch
                 = Ok (true, state_after (ReadDiskSectors 3 1 (Ptr 0 0)) small_scratch))
    by (apply value_of_run; evaluate).
  split; [exact Hrun|].
  assert (Hblk : nth_error (heap small_scratch) 0 = Some (Some (repeat None 1024)))
    by evaluate.
  assert (Hfit : bytesPerSector (BootSector_of_bytes (g_BootSector small_scratch))
                 * uint32_t 1 <= Z.of_nat (length (repeat (@None byte) 1024)))
    by evaluate.
  destruct (ReadDiskSectors_keeps_to_buffer small_scratch _ 3 1 0%nat _ true
              Hblk Hfit Hrun)
    as (_ & _ & _ & _ & _ & _ & cells' & H1 & H2 & H3).
  exists cells'. split; [exact H1|]. split; [exact H2 | exact H3].
Defined.

(** ** The loading stages on any header *)

(** X7.  [ReadFAT] on any header whose table size is an [int].  It
    allocates [sectorsPerFat * bytesPerSector] bytes, stores the address in
    [g_Fat], seeks to sector [reservedSectors mod 256] (the sector number
    passes through the [uint8_t] parameter of [ReadDiskSectors]) and asks
    for [sectorsPerFat] sectors.  With a positive sector size it returns
    true exactly when the image holds that many bytes from there; with a
    sector size of zero, exactly when [sectorsPerFat] is zero.  On success
    the buffer holds that part of the image and the stream is just after
    it. *)
Theorem ReadFAT_reads (s : state) :
  let bs := BootSector_of_bytes (g_BootSector s) in
  let bps := bytesPerSector bs in
  let bytes := sectorsPerFat bs * bps in
  let off := uint8_t (reservedSectors bs) * bps in
  let available := Z.of_nat (length (skipn (Z.to_nat off) (contents (disk s)))) in
  bytes <= INT_MAX ->
  exists (ok : bool) (s' : state) (items : Z),
    ReadFAT s = Ok (ok, s') /\
    g_Fat s' = Ptr (length (heap s)) 0 /\
    trace s' = trace s ++
      [Emalloc bytes (Ptr (length (heap s)) 0); Efseek off 0;
       Efread bps (sectorsPerFat bs) off items] /\
    (0 < bps -> (ok = true <-> bytes <= available)) /\
    (bps = 0 -> (ok = true <-> sectorsPerFat bs = 0)) /\
    (ok = true ->
       nth_error (heap s') (length (heap s))
         = Some (Some (map Some (slice (Z.to_nat off) (Z.to_nat bytes)
                                       (contents (disk s))))) /\
       position (disk s') = off + bytes).
Proof.
  intros bs bps bytes off available Hmax.
  pose proof (BootSector_fields_range (g_BootSector s)) as R. cbv zeta in R.
  fold bs in R. fold bps in R.
  destruct (ReadFAT_spec s Hmax)
    as (s' & Hrun & _ & Hfat & _ & _ & Hpos & Htr & _ & _ & Hblk).
  fold bs bps bytes off in Hrun, Htr, Hblk, Hpos.
  set (data := firstn (Z.to_nat bytes) (skipn (Z.to_nat off) (contents (disk s)))) in *.
  assert (Hbytes : 0 <= bytes) by (unfold bytes; nia).
  assert (Hlen : Z.of_nat (length data) = Z.min bytes available).
  { unfold data, available. rewrite length_firstn. lia. }
  assert (Hfull : (Z.of_nat (length data) / bps =? sectorsPerFat bs) = true ->
                  Z.of_nat (length data) = bytes).
  { intros Hok. destruct (Z.eq_dec bps 0) as [Hz|Hnz].
    - unfold bytes in *. rewrite Hz in *. lia.
    - assert (Hbps : 0 < bps) by lia.
      assert (Hle : 0 <= Z.of_nat (length data) <= bps * sectorsPerFat bs)
        by (unfold bytes in *; lia).
      apply (items_complete _ _ _ Hbps Hle) in Hok. unfold bytes. lia. }
  eexists _, s', _. split; [exact Hrun|]. split; [exact Hfat|]. split; [exact Htr|].
  split; [|split].
  - intros Hbps.
    assert (Hle : 0 <= Z.of_nat (length data) <= bps * sectorsPerFat bs)
      by (unfold bytes in *; lia).
    rewrite (items_complete _ _ _ Hbps Hle). unfold bytes in *. lia.
  - intros Hz. rewrite Hz, Z.div_0_r, Z.eqb_eq. lia.
  - intros Hok. apply Hfull in Hok. split; [|lia].
    rewrite Hblk, overwrite_all; [reflexivity|].
    rewrite length_map, repeat_length. lia.
Qed.

(** The table of [small_volume]. *)
Lemma ReadFAT_reads_witness :
  exists s',
    ReadFAT (after_boot small_volume) = Ok (true, s') /\
    g_Fat s' = Ptr 0 0 /\
    position (disk s') = 512 + 512.
Proof.
  destruct (ReadFAT_reads (after_boot small_volume))
    as (ok & s' & items & Hrun & Hfat & _ & Hok & _ & Hdata); [evaluate|].
  assert (E : ok = true) by (apply Hok; evaluate).
  subst ok. exists s'. split; [exact Hrun|]. split; [exact Hfat|].
  destruct (Hdata eq_refl) as [_ Hpos]. rewrite Hpos. evaluate.
Defined.

(** X8.  [ReadRootDirectory] on any header with a positive sector size.
    It allocates [sectors] sectors, the least whole number of sectors that
    holds [dirEntryCount] entries of 32 bytes, stores the address in
    [g_RootDirectory], seeks to sector
    [(reservedSectors + sectorsPerFat * fatCount) mod 256] and asks for
    [sectors] sectors.  It returns true exactly when the image holds them;
    the buffer then holds that part of the image and the stream is just
    after it. *)
Theorem ReadRootDirectory_reads (s : state) :
  let bs := BootSector_of_bytes (g_BootSector s) in
  let bps := bytesPerSector bs in
  let size := sizeof_DirectoryEntry * dirEntryCount bs in
  let off :=
    uint8_t (reservedSectors bs + sectorsPerFat bs * fatCount bs) * bps in
  let available := Z.of_nat (length (skipn (Z.to_nat off) (contents (disk s)))) in
  0 < bps ->
  exists (ok : bool) (s' : state) (sectors items : Z),
    ReadRootDirectory s = Ok (ok, s') /\
    g_RootDirectory s' = Ptr (length (heap s)) 0 /\
    trace s' = trace s ++
      [Emalloc (sectors * bps) (Ptr (length (heap s)) 0); Efseek off 0;
       Efread bps sectors off items] /\
    size <= sectors * bps < size + bps /\
    (ok = true <-> sectors * bps <= available) /\
    (ok = true ->
       nth_error (heap s') (length (heap s))
         = Some (Some (map Some (slice (Z.to_nat off) (Z.to_nat (sectors * bps))
                                       (contents (disk s))))) /\
       position (disk s') = off + sectors * bps).
Proof.
  intros bs bps size off available Hbps.
  pose proof (BootSector_fields_range (g_BootSector s)) as R. cbv zeta in R.
  fold bs in R. fold bps in R.
  destruct (ReadRootDirectory_spec s Hbps)
    as (s' & Hrun & _ & _ & Hroot & _ & Hpos & Htr & _ & _ & Hblk).
  fold bs bps size off in Hrun, Htr, Hblk, Hpos.
  destruct (sectors_ceiling size bps) as (Hs0 & Hge & Hlt & _);
    [unfold size, sizeof_DirectoryEntry; lia | exact Hbps |].
  set (sectors := if size mod bps >? 0 then size / bps + 1 else size / bps) in *.
  set (data := firstn (Z.to_nat (sectors * bps)) (skipn (Z.to_nat off) (contents (disk s)))) in *.
  assert (Hlen : Z.of_nat (length data) = Z.min (sectors * bps) available).
  { unfold data, available. rewrite length_firstn. nia. }
  assert (Hle : 0 <= Z.of_nat (length data) <= bps * sectors) by nia.
  pose proof (items_complete _ _ _ Hbps Hle) as Hiff.
  eexists _, s', sectors, _. split; [exact Hrun|]. split; [exact Hroot|].
  split; [exact Htr|]. split; [lia|]. split.
  - rewrite Hiff. lia.
  - intros Hok. apply Hiff in Hok. split; [|lia].
    rewrite Hblk, overwrite_all; [reflexivity|].
    rewrite length_map, repeat_length. lia.
Qed.

(** The root directory of [small_volume]. *)
Lemma ReadRootDirectory_reads_witness :
  exists s',
    ReadRootDirectory (after_table small_volume) = Ok (true, s') /\
    g_RootDirectory s' = Ptr 1 0.
Proof.
  destruct (ReadRootDirectory_reads (after_table small_volume))
    as (ok & s' & sectors & items & Hrun & Hroot & _ & Hsz & Hok & _); [evaluate|].
  assert (Hs : sectors = 1).
  { assert (H1 : sizeof_DirectoryEntry
                 * dirEntryCount (BootSector_of_bytes (g_BootSector (after_table small_volume)))
                 = 512) by evaluate.
    assert (H2 : bytesPerSector (BootSector_of_bytes (g_BootSector (after_table small_volume)))
                 = 512) by evaluate.
    rewrite H1, H2 in Hsz. lia. }
  subst sectors.
  assert (E : ok = true) by (apply Hok; evaluate).
  subst ok. exists s'. split; [exact Hrun | exact Hroot].
Defined.

(** What [ReadFAT] leaves when it returns, in any state. *)
Lemma ReadFAT_inv (s s' : state) (ok : bool) :
  ReadFAT s = Ok (ok, s') ->
  g_BootSector s' = g_BootSector s /\
  g_Fat s' = Ptr (length (heap s)) 0 /\
  g_RootDirectory s' = g_RootDirectory s /\
  contents (disk s') = contents (disk s) /\
  length (heap s') = S (length (heap s)) /\
  (forall k, (k < length (heap s))%nat -> nth_error (heap s') k = nth_error (heap s) k) /\
  exists cells, nth_error (heap s') (length (heap s)) = Some (Some cells).
Proof.
  intros H.
  set (bs := BootSector_of_bytes (g_BootSector s)).
  destruct (Z.le_gt_cases (sectorsPerFat bs * bytesPerSector bs) INT_MAX) as [Hle|Hgt].
  - destruct (ReadFAT_spec s Hle)
      as (s1 & Hrun & Hbs & Hfat & Hroot & Hcont & _ & _ & Hlen & Hold & Hblk).
    rewrite H in Hrun. injection Hrun as _ <-.
    split_all; try assumption. eexists. exact Hblk.
  - apply ReadFAT_overflows in Hgt. congruence.
Qed.

(** What [ReadRootDirectory] leaves when it returns, in any state. *)
Lemma ReadRootDirectory_inv (s s' : state) (ok : bool) :
  ReadRootDirectory s = Ok (ok, s') ->
  g_BootSector s' = g_BootSector s /\
  g_Fat s' = g_Fat s /\
  g_RootDirectory s' = Ptr (length (heap s)) 0 /\
  contents (disk s') = contents (disk s) /\
  length (heap s') = S (length (heap s)) /\
  (forall k, (k < length (heap s))%nat -> nth_error (heap s') k = nth_error (heap s) k) /\
  exists cells, nth_error (heap s') (length (heap s)) = Some (Some cells).
Proof.
  intros H.
  set (bs := BootSector_of_bytes (g_BootSector s)).
  pose proof (BootSector_fields_range (g_BootSector s)) as R. cbv zeta in R. fold bs in R.
  destruct (Z.eq_dec (bytesPerSector bs) 0) as [Hz|Hnz].
  - apply ReadRootDirectory_divides_by_zero in Hz. congruence.
  - destruct (ReadRootDirectory_spec s)
      as (s1 & Hrun & Hbs & Hfat & Hroot & Hcont & _ & _ & Hlen & Hold & Hblk);
      [fold bs; lia|].
    rewrite H in Hrun. injection Hrun as _ <-.
    split_all; try assumption. eexists. exact Hblk.
Qed.

(** X9.  [ReadRootDirectory] leaves the allocation table alone.  When
    [g_Fat] points to a live block, then after the call, whatever it
    returns, [g_Fat] is what it was, the block holds what it held, and
    [g_RootDirectory] points to another live block. *)
Theorem ReadRootDirectory_keeps_table (s s' : state) (ok : bool) (b : nat)
    (cells : list cell) :
  g_Fat s = Ptr b 0 ->
  nth_error (heap s) b = Some (Some cells) ->
  ReadRootDirectory s = Ok (ok, s') ->
  g_Fat s' = Ptr b 0 /\
  nth_error (heap s') b = Some (Some cells) /\
  exists (b' : nat) (cells' : list cell),
    b' <> b /\
    g_RootDirectory s' = Ptr b' 0 /\
    nth_error (heap s') b' = Some (Some cells').
Proof.
  intros Hfat Hblk Hrun.
  destruct (ReadRootDirectory_inv s s' ok Hrun)
    as (_ & Hfat' & Hroot' & _ & _ & Hold & cells' & Hnew).
  assert (Hb : (b < length (heap s))%nat)
    by (apply nth_error_Some; congruence).
  split; [congruence|]. split; [rewrite Hold by exact Hb; exact Hblk|].
  exists (length (heap s)), cells'. split; [lia|]. split; assumption.
Qed.

(** The table of [small_volume] after its root directory is loaded. *)
Lemma ReadRootDirectory_keeps_table_witness :
  ReadRootDirectory (after_table small_volume)
    = Ok (true, state_after ReadRootDirectory (after_table small_volume)) /\
  nth_error (heap (state_after ReadRootDirectory (after_table small_volume))) 0
    = Some (Some (map Some (table_region small_volume))).
Proof.
  assert (Hrun : ReadRootDirectory (after_table small_volume)
                 = Ok (true, state_after ReadRootDirectory (after_table small_volume)))
    by (apply value_of_run; evaluate).
  split; [exact Hrun|].
  destruct (ReadRootDirectory_keeps_table (after_table small_volume) _ true 0%nat
              (map Some (table_region small_volume)) eq_refl eq_refl Hrun)
    as (_ & H & _).
  exact H.
Defined.

(** ** Lookups in any state *)







Lemma FindFile_loop_key (n1 n2 : list byte) (todo : nat) :
  (11 <= length n1)%nat -> (11 <= length n2)%nat ->
  firstn 11 n1 = firstn 11 n2 ->
  forall i s, FindFile_loop todo i n1 s = FindFile_loop todo i n2 s.
Proof.
  intros H1 H2 Hkey.
  induction todo as [|todo IH]; intros i s; [reflexivity|].
  cbn [FindFile_loop]. unfold memcmp.
  apply Nat.ltb_ge in H1. apply Nat.ltb_ge in H2. rewrite H1, H2, Hkey.
  unfold bind, get. cbv beta iota zeta.
  destruct (load _ 11 s) as [[b s1]|]; [|reflexivity].
  unfold ret at 1 3.
  destruct (compare_bytes (firstn 11 n2) b =? 0); [reflexivity|].
  apply IH.
Qed.

(** X11.  [FindFile] looks at the first 11 bytes of its argument only:
    two arguments of at least 11 bytes that agree there behave alike in
    every state.  The terminating null of a C string of 11 characters, and
    anything after the eleventh byte, plays no part. *)
Theorem FindFile_reads_11_bytes (n1 n2 : list byte) (s : state) :
  (11 <= length n1)%nat -> (11 <= length n2)%nat ->
  firstn 11 n1 = firstn 11 n2 ->
  FindFile n1 s = FindFile n2 s.
Proof.
  intros H1 H2 Hkey. rewrite !FindFile_unfold.
  now apply FindFile_loop_key.
Qed.

(** A C string and a longer array with the same first 11 bytes. *)
Lemma FindFile_reads_11_bytes_witness :
  FindFile (c_string "FILE    TXT") (after_root small_volume)
  = FindFile (ascii "FILE    TXT.OLD") (after_root small_volume).
Proof. apply FindFile_reads_11_bytes; evaluate. Defined.

(** X12.  An argument shorter than 11 bytes.  [memcmp] reads 11 bytes
    of it, so with at least one directory entry to compare the behaviour is
    undefined; with [dirEntryCount] = 0 the argument is never read and the
    result is [NULL]. *)
Theorem FindFile_short_argument (name : list byte) (s : state) :
  let n := dirEntryCount (BootSector_of_bytes (g_BootSector s)) in
  (length name < 11)%nat ->
  (0 < n -> FindFile name s = Undefined) /\
  (n = 0 -> FindFile name s = Ok (NULL, s)).
Proof.
  intros n Hshort. split.
  - intros Hn. rewrite FindFile_unfold. fold n.
    destruct (Z.to_nat n) as [|todo] eqn:E; [lia|].
    cbn [FindFile_loop]. unfold bind at 1. unfold get. cbv beta iota zeta.
    unfold bind at 1. unfold memcmp.
    apply Nat.ltb_lt in Hshort. rewrite Hshort. reflexivity.
  - intros Hn. now apply FindFile_no_entries.
Qed.

(** A name that is not padded to 11 bytes. *)
Lemma FindFile_short_argument_witness :
  FindFile (c_string "FILE.TXT") (after_root small_volume) = Undefined.
Proof.
  assert (H : (length (c_string "FILE.TXT") < 11)%nat) by evaluate.
  apply (proj1 (FindFile_short_argument _ (after_root small_volume) H)).
  evaluate.
Defined.

(** ** The loading stages on an image *)

Lemma free_live (s : state) (b : nat) (cells : list cell) :
  nth_error (heap s) b = Some (Some cells) ->
  free (Ptr b 0) s
    = Ok (tt, log (Efree (Ptr b 0)) (set_heap (set_nth b None (heap s)) s)).
Proof. intros H. unfold free. now rewrite H. Qed.

(** [ReadBootSector] on an image that holds a whole header. *)
Lemma ReadBootSector_opened (img : list byte) :
  sizeof_BootSector <= Z.of_nat (length img) ->
  ReadBootSector (opened img) = Ok (true, after_boot img).
Proof.
  intros Hlen.
  unfold ReadBootSector, bind, ret, fread.
  change ((sizeof_BootSector =? 0) || (1 =? 0)) with false. cbv iota.
  rewrite Z.mul_1_r, opened_state. unfold remaining. proj.
  change (skipn (Z.to_nat 0) img) with img. fold (header img).
  assert (Hhdr : length (header img) = Z.to_nat sizeof_BootSector).
  { unfold header. rewrite length_firstn. unfold sizeof_BootSector in *. lia. }
  rewrite store_BootSector by (proj; rewrite Hhdr, repeat_length; reflexivity).
  proj. rewrite overwrite_all by (rewrite Hhdr, repeat_length; reflexivity).
  rewrite Hhdr. reflexivity.
Qed.

(** [ReadBootSector] on an image too short for a header. *)
Lemma ReadBootSector_short (img : list byte) :
  Z.of_nat (length img) < sizeof_BootSector ->
  ReadBootSector (opened img)
    = Ok (false,
          mkState (mkFILE img (Z.of_nat (length img))) []
                  (overwrite 0 img (repeat x00 (Z.to_nat sizeof_BootSector)))
                  NULL NULL
                  [Efopen true; Efread sizeof_BootSector 1 0 0]).
Proof.
  intros Hlen.
  unfold ReadBootSector, bind, ret, fread.
  change ((sizeof_BootSector =? 0) || (1 =? 0)) with false. cbv iota.
  rewrite Z.mul_1_r, opened_state. unfold remaining. proj.
  change (skipn (Z.to_nat 0) img) with img.
  rewrite firstn_all2 by (unfold sizeof_BootSector in *; lia).
  rewrite store_BootSector
    by (proj; rewrite repeat_length; unfold sizeof_BootSector in *; lia).
  proj. rewrite Z.div_small by lia. reflexivity.
Qed.



Lemma list_one {A : Type} (l : list A) (x : A) :
  length l = 1%nat -> nth_error l 0 = Some x -> l = [x].
Proof.
  destruct l as [|a [|b l]]; cbn; intros; try discriminate. congruence.
Qed.

Lemma list_two {A : Type} (l : list A) (x y : A) :
  length l = 2%nat -> nth_error l 0 = Some x -> nth_error l 1 = Some y ->
  l = [x; y].
Proof.
  destruct l as [|a [|b [|c l]]]; cbn; intros; try discriminate. congruence.
Qed.








(** The table buffer after [ReadFAT] on a decoded header, whatever it
    returns. *)
Lemma ReadFAT_after_boot_inv (img : list byte) (ok : bool) (s2 : state) :
  ReadFAT (after_boot img) = Ok (ok, s2) ->
  g_Fat s2 = Ptr 0 0 /\ g_BootSector s2 = header img /\ contents (disk s2) = img /\
  exists c0, heap s2 = [Some c0].
Proof.
  intros Hrun.
  destruct (ReadFAT_inv _ _ _ Hrun) as (Hbs & Hfat & _ & Hcont & Hlen & _ & c0 & Hblk).
  change (heap (after_boot img)) with (@nil block) in Hfat, Hlen, Hblk.
  cbn [length] in Hfat, Hlen, Hblk.
  split; [exact Hfat|]. split; [exact Hbs|]. split; [exact Hcont|].
  exists c0. now apply list_one.
Qed.

(** [ReadFAT] on a decoded header: what it returns. *)
Lemma ReadFAT_after_boot_spec (img : list byte) :
  let bs := BootSector_of_bytes (header img) in
  let data := firstn (Z.to_nat (table_bytes bs))
                     (skipn (Z.to_nat (table_offset bs)) img) in
  let items := Z.of_nat (length data) / bytesPerSector bs in
  table_bytes bs <= INT_MAX ->
  exists s2 c0,
    ReadFAT (after_boot img) = Ok (items =? sectorsPerFat bs, s2) /\
    g_BootSector s2 = header img /\
    contents (disk s2) = img /\
    g_Fat s2 = Ptr 0 0 /\
    g_RootDirectory s2 = NULL /\
    heap s2 = [Some c0] /\
    trace s2 = [Efopen true; Efread sizeof_BootSector 1 0 1;
                Emalloc (table_bytes bs) (Ptr 0 0); Efseek (table_offset bs) 0;
                Efread (bytesPerSector bs) (sectorsPerFat bs) (table_offset bs) items].
Proof.
  intros bs data items Hmax.
  destruct (ReadFAT_spec (after_boot img) Hmax)
    as (s2 & Hrun & Hbs & Hfat & Hroot & Hcont & _ & Htr & Hhlen & _ & Hblk).
  change (g_BootSector (after_boot img)) with (header img) in Hrun, Hbs, Htr, Hblk.
  change (contents (disk (after_boot img))) with img in Hrun, Hcont, Htr, Hblk.
  change (heap (after_boot img)) with (@nil block) in Hfat, Htr, Hhlen, Hblk.
  change (trace (after_boot img)) with [Efopen true; Efread sizeof_BootSector 1 0 1] in Htr.
  change (g_RootDirectory (after_boot img)) with NULL in Hroot.
  cbn [length app] in Hfat, Htr, Hhlen, Hblk.
  fold bs in Hrun, Htr, Hblk.
  fold (table_offset bs) in Hrun, Htr, Hblk.
  fold (table_bytes bs) in Hrun, Htr, Hblk.
  fold data in Hrun, Htr, Hblk. fold items in Hrun, Htr.
  eexists s2, _. split_all; try eassumption.
  apply list_one; eassumption.
Qed.

(** Both buffers after [ReadRootDirectory] on a loaded table, whatever it
    returns. *)
Lemma ReadRootDirectory_after_inv (s2 s3 : state) (ok : bool) (c0 : list cell) :
  g_Fat s2 = Ptr 0 0 -> heap s2 = [Some c0] ->
  ReadRootDirectory s2 = Ok (ok, s3) ->
  g_Fat s3 = Ptr 0 0 /\ g_RootDirectory s3 = Ptr 1 0 /\
  exists c1, heap s3 = [Some c0; Some c1].
Proof.
  intros Hfat Hheap Hrun.
  destruct (ReadRootDirectory_inv _ _ _ Hrun)
    as (_ & Hfat' & Hroot & _ & Hlen & Hold & c1 & Hblk).
  rewrite Hheap in Hroot, Hlen, Hold, Hblk. cbn [length] in Hroot, Hlen, Hold, Hblk.
  split; [congruence|]. split; [exact Hroot|].
  exists c1. apply list_two; [exact Hlen | | exact Hblk].
  rewrite Hold by lia. reflexivity.
Qed.


(** X13.  [ReadBootSector] on a freshly opened image returns true
    exactly when the image holds at least 62 bytes.  It calls [fread] once,
    at offset 0, leaves the stream after the bytes it took, allocates
    nothing and leaves both buffer pointers null; on success [g_BootSector]
    holds the first 62 bytes of the image. *)
Theorem ReadBootSector_outcome (img : list byte) :
  let n := Z.of_nat (length img) in
  exists s',
    ReadBootSector (opened img) = Ok (sizeof_BootSector <=? n, s') /\
    disk s' = mkFILE img (Z.min sizeof_BootSector n) /\
    heap s' = [] /\
    g_Fat s' = NULL /\
    g_RootDirectory s' = NULL /\
    trace s' = [Efopen true;
                Efread sizeof_BootSector 1 0 (if sizeof_BootSector <=? n then 1 else 0)] /\
    (sizeof_BootSector <= n -> g_BootSector s' = header img).
Proof.
  intros n. destruct (Z.leb_spec sizeof_BootSector n) as [Hlen|Hshort].
  - rewrite (ReadBootSector_opened img Hlen). eexists. split; [reflexivity|].
    unfold after_boot. proj. rewrite Z.min_l by exact Hlen.
    split_all; try reflexivity.
  - rewrite (ReadBootSector_short img Hshort). eexists. split; [reflexivity|].
    proj. rewrite Z.min_r by lia.
    split_all; try reflexivity. intros H. fold n in H. lia.
Qed.



(** ** The exits of [main] *)

(** The first early return of [main] that releases a buffer. *)
Lemma release_table (s : state) (c0 : list cell) (r : Z) :
  g_Fat s = Ptr 0 0 -> heap s = [Some c0] ->
  exists s',
    (s0 <- get ;; free (g_Fat s0) ;;; ret r) s = Ok (r, s') /\
    heap s' = [None] /\
    g_RootDirectory s' = g_RootDirectory s /\
    trace s' = trace s ++ [Efree (Ptr 0 0)].
Proof.
  intros Hfat Hheap.
  unfold bind, get, ret, free. cbv beta iota zeta.
  rewrite Hfat, Hheap. cbn [nth_error set_nth].
  eexists. split; [reflexivity|]. proj. split_all; reflexivity.
Qed.

(** The end of [main], from a state with the two buffers live. *)
Lemma release_both (s : state) (c0 c1 : list cell) (r : Z) :
  g_Fat s = Ptr 0 0 -> g_RootDirectory s = Ptr 1 0 ->
  heap s = [Some c0; Some c1] ->
  exists s',
    release_and_return r s = Ok (r, s') /\
    heap s' = [None; None] /\
    trace s' = trace s ++ [Efree (Ptr 0 0); Efree (Ptr 1 0)].
Proof.
  intros Hfat Hroot Hheap.
  unfold release_and_return, bind, get, ret, free. cbv beta iota zeta.
  rewrite Hfat, Hheap. cbn [nth_error]. proj. rewrite Hroot.
  cbn [set_nth nth_error].
  eexists. split; [reflexivity|]. proj. split; [reflexivity|].
  now rewrite <- app_assoc.
Qed.

(** [main] up to the lookup, on an image that holds a header. *)
Lemma main_from_boot (argc : Z) (img name : list byte) :
  3 <= argc ->
  sizeof_BootSector <= Z.of_nat (length img) ->
  main argc (Some img) name initial_state
  = match ReadFAT (after_boot img) with
    | Ok (false, s2) => (s <- get ;; free (g_Fat s) ;;; ret (-3)) s2
    | Ok (true, s2) =>
        match ReadRootDirectory s2 with
        | Ok (false, s3) => release_and_return (-4) s3
        | Ok (true, s3) =>
            match FindFile name s3 with
            | Ok (NULL, s4) => release_and_return (-5) s4
            | Ok (_, s4) => release_and_return 0 s4
            | Undefined => Undefined
            end
        | Undefined => Undefined
        end
    | Undefined => Undefined
    end.
Proof.
  intros Hargc Hlen.
  unfold main. apply Z.ltb_ge in Hargc. rewrite Hargc.
  unfold bind at 1. unfold fopen at 1.
  change (log (Efopen true) (set_disk {| contents := img; position := 0 |} initial_state))
    with (opened img).
  cbn [negb]. cbv beta iota.
  unfold bind at 1. rewrite (ReadBootSector_opened img Hlen). cbn [negb]. cbv beta iota.
  unfold bind at 1.
  destruct (ReadFAT (after_boot img)) as [[[|] s2]|]; cbn [negb]; cbv beta iota;
    [|reflexivity|reflexivity].
  unfold bind at 1.
  destruct (ReadRootDirectory s2) as [[[|] s3]|]; cbn [negb]; cbv beta iota;
    [|reflexivity|reflexivity].
  unfold bind at 1.
  destruct (FindFile name s3) as [[p s4]|]; [|reflexivity].
  destruct p; reflexivity.
Qed.

(** X15.  The exits of [main] before anything is allocated.  With
    [argc] below 3 it returns -1 and does nothing else; when the image
    cannot be opened it returns -1; when the image is shorter than the 62
    bytes of a boot sector it returns -2 after one read, with no buffer
    allocated and both buffer pointers null. *)
Theorem main_early_exit (argc : Z) (image : option (list byte)) (name : list byte) :
  (argc < 3 -> main argc image name initial_state = Ok (-1, initial_state)) /\
  (3 <= argc -> image = None ->
     exists s', main argc image name initial_state = Ok (-1, s') /\
       trace s' = [Efopen false] /\ heap s' = []) /\
  (3 <= argc -> forall img, image = Some img ->
     Z.of_nat (length img) < sizeof_BootSector ->
     exists s', main argc image name initial_state = Ok (-2, s') /\
       trace s' = [Efopen true; Efread sizeof_BootSector 1 0 0] /\
       heap s' = [] /\ g_Fat s' = NULL /\ g_RootDirectory s' = NULL).
Proof.
  split; [|split].
  - intros H. unfold main. apply Z.ltb_lt in H. now rewrite H.
  - intros H ->. unfold main. apply Z.ltb_ge in H. rewrite H.
    eexists. split; [reflexivity|]. split; reflexivity.
  - intros H img -> Hshort. unfold main. apply Z.ltb_ge in H. rewrite H.
    unfold bind at 1. unfold fopen at 1.
    change (log (Efopen true) (set_disk {| contents := img; position := 0 |} initial_state))
      with (opened img).
    cbn [negb]. cbv beta iota.
    unfold bind at 1. rewrite (ReadBootSector_short img Hshort). cbn [negb]. cbv beta iota.
    eexists. split; [reflexivity|]. proj. split_all; reflexivity.
Qed.

(** One argument too few, a missing image, an image of 40 bytes. *)
Lemma main_early_exit_witness :
  main 2 (Some small_volume) [] initial_state = Ok (-1, initial_state) /\
  (exists s', main 3 None [] initial_state = Ok (-1, s') /\ heap s' = []) /\
  (exists s', main 3 (Some small_cut_header) [] initial_state = Ok (-2, s') /\
              heap s' = []).
Proof.
  split; [|split].
  - apply (proj1 (main_early_exit 2 (Some small_volume) [])). lia.
  - destruct (proj1 (proj2 (main_early_exit 3 None [])) ltac:(lia) eq_refl)
      as (s' & Hrun & _ & Hheap).
    exists s'. split; assumption.
  - destruct (proj2 (proj2 (main_early_exit 3 (Some small_cut_header) []))
                ltac:(lia) small_cut_header eq_refl)
      as (s' & Hrun & _ & Hheap & _); [evaluate|].
    exists s'. split; assumption.
Defined.

(** X16.  [main] on an image that ends inside its table region, the
    [sectorsPerFat] sectors from sector [reservedSectors mod 256]: it
    returns -3, releases the table buffer and never allocates the directory
    buffer. *)
Theorem main_truncated_table_region (argc : Z) (img name : list byte) :
  let bs := BootSector_of_bytes (header img) in
  3 <= argc ->
  sizeof_BootSector <= Z.of_nat (length img) ->
  0 < bytesPerSector bs ->
  table_bytes bs <= INT_MAX ->
  Z.of_nat (length (skipn (Z.to_nat (table_offset bs)) img)) < table_bytes bs ->
  exists (s' : state) (items : Z),
    main argc (Some img) name initial_state = Ok (-3, s') /\
    trace s' =
      [Efopen true; Efread sizeof_BootSector 1 0 1;
       Emalloc (table_bytes bs) (Ptr 0 0); Efseek (table_offset bs) 0;
       Efread (bytesPerSector bs) (sectorsPerFat bs) (table_offset bs) items;
       Efree (Ptr 0 0)] /\
    heap s' = [None] /\
    g_RootDirectory s' = NULL.
Proof.
  intros bs Hargc Hlen Hbps Hmax Hcut.
  pose proof (BootSector_fields_range (header img)) as R. cbv zeta in R. fold bs in R.
  rewrite (main_from_boot argc img name Hargc Hlen).
  destruct (ReadFAT_after_boot_spec img Hmax)
    as (s2 & c0 & Hrun & _ & _ & Hfat & Hroot & Hheap & Htr).
  fold bs in Hrun, Htr.
  set (data := firstn (Z.to_nat (table_bytes bs)) (skipn (Z.to_nat (table_offset bs)) img)) in *.
  assert (Hb0 : 0 <= table_bytes bs) by (unfold table_bytes; nia).
  assert (Hshort : (Z.of_nat (length data) / bytesPerSector bs =? sectorsPerFat bs) = false).
  { destruct (Z.of_nat (length data) / bytesPerSector bs =? sectorsPerFat bs) eqn:E;
      [|reflexivity].
    exfalso. apply items_complete in E; [| exact Hbps |].
    - unfold data in E. rewrite length_firstn in E. unfold table_bytes in *. lia.
    - unfold data. rewrite length_firstn. unfold table_bytes in *. lia. }
  rewrite Hshort in Hrun. rewrite Hrun.
  destruct (release_table s2 c0 (-3) Hfat Hheap) as (s' & Hrel & Hh & Hr & Ht).
  exists s', (Z.of_nat (length data) / bytesPerSector bs).
  split; [exact Hrel|]. split; [rewrite Ht, Htr; reflexivity|].
  split; [exact Hh | congruence].
Qed.

(** [small_volume] cut after 1000 bytes. *)
Lemma main_truncated_table_region_witness :
  exists s',
    main 3 (Some small_cut_table) (c_string "FILE    TXT") initial_state
      = Ok (-3, s') /\
    heap s' = [None].
Proof.
  destruct (main_truncated_table_region 3 small_cut_table (c_string "FILE    TXT"))
    as (s' & items & Hrun & _ & Hheap & _); try evaluate.
  exists s'. split; assumption.
Defined.





(** X19.  [main] on a header that announces sectors of zero bytes.
    [ReadFAT] then reads no item: with [sectorsPerFat] different from zero
    it reports failure and [main] returns -3; with [sectorsPerFat] zero it
    reports success, [ReadRootDirectory] divides by zero, and [main] has
    undefined behaviour. *)
Theorem main_zero_sector_size (argc : Z) (img name : list byte) :
  let bs := BootSector_of_bytes (header img) in
  3 <= argc ->
  sizeof_BootSector <= Z.of_nat (length img) ->
  bytesPerSector bs = 0 ->
  (sectorsPerFat bs = 0 -> main argc (Some img) name initial_state = Undefined) /\
  (sectorsPerFat bs <> 0 ->
     exists s', main argc (Some img) name initial_state = Ok (-3, s') /\
       trace s' =
         [Efopen true; Efread sizeof_BootSector 1 0 1;
          Emalloc 0 (Ptr 0 0); Efseek 0 0; Efread 0 (sectorsPerFat bs) 0 0;
          Efree (Ptr 0 0)]).
Proof.
  intros bs Hargc Hlen Hz.
  rewrite (main_from_boot argc img name Hargc Hlen).
  assert (Hmax : table_bytes bs <= INT_MAX).
  { unfold table_bytes. rewrite Hz, Z.mul_0_r. unfold INT_MAX. lia. }
  destruct (ReadFAT_after_boot_spec img Hmax)
    as (s2 & c0 & Hrun & Hbs & _ & Hfat & _ & Hheap & Htr).
  fold bs in Hrun, Htr.
  unfold table_bytes, table_offset in Hrun, Htr.
  rewrite Hz, !Z.mul_0_r in Hrun, Htr.
  rewrite Z.div_0_r in Hrun, Htr.
  split.
  - intros Hspf. rewrite Hspf in Hrun. change (0 =? 0) with true in Hrun.
    rewrite Hrun. rewrite ReadRootDirectory_divides_by_zero; [reflexivity|].
    rewrite Hbs. exact Hz.
  - intros Hspf. apply Z.eqb_neq in Hspf. rewrite Z.eqb_sym in Hspf.
    rewrite Hspf in Hrun. rewrite Hrun.
    destruct (release_table s2 c0 (-3) Hfat Hheap) as (s' & Hrel & _ & _ & Ht).
    exists s'. split; [exact Hrel|]. rewrite Ht, Htr. reflexivity.
Qed.

(** A header with a table of one sector of zero bytes. *)
Lemma main_zero_sector_size_witness :
  exists s', main 3 (Some small_zero_sector_size) [] initial_state = Ok (-3, s').
Proof.
  destruct (main_zero_sector_size 3 small_zero_sector_size []) as [_ H];
    try evaluate.
  destruct H as (s' & Hrun & _).
  - assert (E : sectorsPerFat (BootSector_of_bytes (header small_zero_sector_size)) = 1)
      by evaluate.
    rewrite E. discriminate.
  - exists s'. exact Hrun.
Defined.

(** X21.  Whenever [main] returns, its result is one of -1, -2, -3, -4,
    -5 and 0, it has allocated at most two blocks, and it has released
    every block it allocated. *)
Theorem main_releases_buffers (argc : Z) (image : option (list byte))
    (name : list byte) (r : Z) (s' : state) :
  main argc image name initial_state = Ok (r, s') ->
  In r [-1; -2; -3; -4; -5; 0] /\
  (length (heap s') <= 2)%nat /\
  Forall (fun b => b = None) (heap s').
Proof.
  intros H.
  destruct (Z.lt_ge_cases argc 3) as [Hlt|Hge].
  { unfold main in H. apply Z.ltb_lt in Hlt. rewrite Hlt in H.
    unfold ret in H. injection H as <- <-. cbn. auto. }
  destruct image as [img|].
  2:{ unfold main in H. apply Z.ltb_ge in Hge. rewrite Hge in H.
      cbn in H. injection H as <- <-. cbn. auto. }
  destruct (Z.lt_ge_cases (Z.of_nat (length img)) sizeof_BootSector) as [Hshort|Hlen].
  { unfold main in H. apply Z.ltb_ge in Hge. rewrite Hge in H.
    unfold bind at 1 in H. unfold fopen at 1 in H.
    change (log (Efopen true) (set_disk {| contents := img; position := 0 |} initial_state))
      with (opened img) in H.
    cbn [negb] in H. cbv beta iota in H.
    unfold bind at 1 in H. rewrite (ReadBootSector_short img Hshort) in H.
    cbn [negb] in H. cbv beta iota in H. unfold ret in H.
    injection H as <- <-. cbn. auto 6. }
  rewrite (main_from_boot argc img name Hge Hlen) in H.
  destruct (ReadFAT (after_boot img)) as [[ok s2]|] eqn:Hfat; [|discriminate].
  destruct (ReadFAT_after_boot_inv img ok s2 Hfat) as (Hp2 & _ & _ & c0 & Hh2).
  destruct ok.
  2:{ destruct (release_table s2 c0 (-3) Hp2 Hh2) as (t & Hrel & Hh & _).
      rewrite Hrel in H. injection H as <- <-. rewrite Hh. cbn. auto 8. }
  destruct (ReadRootDirectory s2) as [[ok s3]|] eqn:Hroot; [|discriminate].
  destruct (ReadRootDirectory_after_inv s2 s3 ok c0 Hp2 Hh2 Hroot) as (Hp3 & Hq3 & c1 & Hh3).
  assert (Hrel : forall x, release_and_return x s3 = Ok (r, s') ->
                 x = r /\ heap s' = [None; None]).
  { intros x Hx. destruct (release_both s3 c0 c1 x Hp3 Hq3 Hh3) as (t & Hrel & Hh & _).
    rewrite Hrel in Hx. injection Hx as <- <-. auto. }
  destruct ok.
  2:{ apply Hrel in H. destruct H as [<- ->]. cbn. auto 8. }
  destruct (FindFile name s3) as [[p s4]|] eqn:Hfind; [|discriminate].
  apply FindFile_frame in Hfind. subst s4.
  destruct p; apply Hrel in H; destruct H as [<- ->]; cbn; auto 10.
Qed.

(** A successful lookup on [small_volume]. *)
Lemma main_releases_buffers_witness :
  main 3 (Some small_volume) (c_string "FILE    TXT") initial_state
    = Ok (0, state_after (main 3 (Some small_volume) (c_string "FILE    TXT"))
                         initial_state) /\
  Forall (fun b => b = None)
    (heap (state_after (main 3 (Some small_volume) (c_string "FILE    TXT"))
                       initial_state)).
Proof.
  assert (Hrun : main 3 (Some small_volume) (c_string "FILE    TXT") initial_state
                 = Ok (0, state_after (main 3 (Some small_volume)
                                             (c_string "FILE    TXT")) initial_state))
    by (apply value_of_run; evaluate).
  split; [exact Hrun|].
  exact (proj2 (proj2 (main_releases_buffers _ _ _ _ _ Hrun))).
Defined.
